(** * gcal-sdk: credential loading, pagination, request bodies and records

    A shallow embedding of the Python package [gcal_sdk]
    ([auth.py], [models.py], [events.py], [calendars.py], [freebusy.py])
    and the properties its specification states about it.

    Python values that travel as JSON or as [dict]s are values of [pyval];
    a raised exception is the [Raise] case of [result]; code that touches the
    disk, the authorization server or the calendar service runs in a state
    monad over an explicit world that also records what was done. *)

From Stdlib Require Import Ascii.
From stdpp Require Import base strings list gmap.

Local Open Scope string_scope.
Local Open Scope list_scope.

(** ** Python values, truthiness, [dict.get] and exceptions *)
Module Py.

Inductive exn :=
  | FileNotFoundError
  | JSONDecodeError
  | AttributeError
  | TypeError
  | ValueError
  | ValidationError
  | RefreshError
  | HttpError.

Inductive result (A : Type) :=
  | Ok (a : A)
  | Raise (e : exn).
Arguments Ok {A} a.
Arguments Raise {A} e.

Definition rbind {A B} (r : result A) (k : A -> result B) : result B :=
  match r with
  | Ok a => k a
  | Raise e => Raise e
  end.

(** What [json.loads] produces and what a request body is made of.  A [dict]
    keeps its insertion order; its keys are distinct. *)
#[warnings="-register-all"]
Inductive pyval :=
  | VNone
  | VBool (b : bool)
  | VInt (z : Z)
  | VStr (s : string)
  | VList (l : list pyval)
  | VDict (kv : list (string * pyval)).

Definition dict := list (string * pyval).

(** [bool(v)] *)
Definition truthy (v : pyval) : bool :=
  match v with
  | VNone => false
  | VBool b => b
  | VInt z => negb (Z.eqb z 0)
  | VStr s => negb (String.eqb s "")
  | VList l => match l with [] => false | _ => true end
  | VDict kv => match kv with [] => false | _ => true end
  end.

Fixpoint dict_lookup (k : string) (d : dict) : option pyval :=
  match d with
  | [] => None
  | (k', v) :: d' => if String.eqb k k' then Some v else dict_lookup k d'
  end.

(** [d[k] = v] *)
Fixpoint dict_set (k : string) (v : pyval) (d : dict) : dict :=
  match d with
  | [] => [(k, v)]
  | (k', v') :: d' =>
      if String.eqb k k' then (k, v) :: d' else (k', v') :: dict_set k v d'
  end.

(** [d.get(k, default)] on a [dict] *)
Definition dict_get (d : dict) (k : string) (default : pyval) : pyval :=
  match dict_lookup k d with
  | Some v => v
  | None => default
  end.

(** [x.get(k, default)] on any value: only a [dict] has the method. *)
Definition py_get (x : pyval) (k : string) (default : pyval) : result pyval :=
  match x with
  | VDict d => Ok (dict_get d k default)
  | _ => Raise AttributeError
  end.

Fixpoint chars (s : string) : list pyval :=
  match s with
  | EmptyString => []
  | String c s' => VStr (String c EmptyString) :: chars s'
  end.

(** What a [for] loop, [list(x)] or [extend] walks through. *)
Definition py_iter (x : pyval) : result (list pyval) :=
  match x with
  | VList l => Ok l
  | VStr s => Ok (chars s)
  | VDict d => Ok (map (fun kv => VStr (fst kv)) d)
  | _ => Raise TypeError
  end.

(** [[f(x) for x in xs]], stopping at the first exception. *)
Fixpoint traverse {A B} (f : A -> result B) (xs : list A) : result (list B) :=
  match xs with
  | [] => Ok []
  | x :: xs' =>
      rbind (f x) (fun y => rbind (traverse f xs') (fun ys => Ok (y :: ys)))
  end.

(** Code with effects: a computation over a state [S] that returns or raises,
    and leaves the state it reached either way. *)
Definition M (S A : Type) : Type := S -> result A * S.

Definition ret {S A} (a : A) : M S A := fun s => (Ok a, s).
Definition raise {S A} (e : exn) : M S A := fun s => (Raise e, s).
Definition bind {S A B} (m : M S A) (k : A -> M S B) : M S B :=
  fun s =>
    match m s with
    | (Ok a, s') => k a s'
    | (Raise e, s') => (Raise e, s')
    end.
Definition lift {S A} (r : result A) : M S A := fun s => (r, s).

Notation "x <- m ;; k" := (bind m (fun x => k))
  (at level 100, m at next level, right associativity).
Notation "m ;;; k" := (bind m (fun _ => k))
  (at level 100, right associativity).

End Py.
Import Py.

(** ** auth.py *)
Module Auth.

(** [google.oauth2.credentials.Credentials]: the six attributes the module
    passes to the constructor and reads back.  [expiry] is the object's own
    attribute: the constructor call of this module never passes it, the
    library's [refresh] sets it. *)
Record Credentials := mkCredentials {
  token : pyval;
  refresh_token : pyval;
  token_uri : pyval;
  client_id : pyval;
  client_secret : pyval;
  scopes : pyval;
  expiry : option Z;
}.

(** The part of google-auth the module calls.  [Net] is whatever these calls
    depend on and change: the clock and the authorization server.  [refresh]
    yields the credential as the library left it, or [None] when the exchange
    fails and the library raises its refresh error. *)
Class GoogleAuth (Net : Type) := {
  expired : Net -> Credentials -> bool;
  valid : Net -> Credentials -> bool;
  refresh : Net -> Credentials -> option Credentials * Net;
}.

(** The part of [os] and of the platform the module relies on. *)
Class Os := {
  expanduser : string -> string;
  create_mode : N;
}.

(** A regular file: what it holds and its permission bits.  A file that holds
    a JSON document is identified with the document ([json.loads] of
    [json.dumps] of it); any other text is [Garbage]. *)
Inductive text :=
  | Garbage (s : string)
  | Document (j : pyval).

Record file := mkFile {
  content : text;
  mode : N;
}.

Inductive effect :=
  | RefreshCall (c : Credentials)
  | WriteText (p : string) (t : text)
  | Chmod (p : string) (m : N).

Record world (Net : Type) := mkWorld {
  fs : gmap string file;
  net : Net;
  trace : list effect;
}.
Arguments mkWorld {Net} fs net trace.
Arguments fs {Net} w.
Arguments net {Net} w.
Arguments trace {Net} w.

Definition SCOPES : pyval := VList [VStr "https://www.googleapis.com/auth/calendar"].
Definition DEFAULT_CREDENTIALS_PATH : string := "~/secrets/google-oauth/credentials.json".
Definition DEFAULT_TOKEN_PATH : string := "~/secrets/google-oauth/token.json".
Definition DEFAULT_TOKEN_URI : pyval := VStr "https://oauth2.googleapis.com/token".

Section WithLibraries.
Context {Net : Type} {lib : GoogleAuth Net} {platform : Os}.

Local Abbreviation IO := (M (world Net)).

(** [Path.exists()] *)
Definition path_exists (p : string) : IO bool :=
  fun w => (Ok (bool_decide (is_Some (fs w !! p))), w).

(** [json.loads(p.read_text())] *)
Definition read_json (p : string) : IO pyval :=
  fun w =>
    match fs w !! p with
    | None => (Raise FileNotFoundError, w)
    | Some f =>
        match content f with
        | Document j => (Ok j, w)
        | Garbage _ => (Raise JSONDecodeError, w)
        end
    end.

(** [p.write_text(t)]: creates the file or replaces what it holds; an
    existing file keeps its permission bits. *)
Definition write_text (p : string) (t : text) : IO unit :=
  fun w =>
    let m := match fs w !! p with Some f => mode f | None => create_mode end in
    (Ok tt, mkWorld (<[p := mkFile t m]> (fs w)) (net w) (trace w ++ [WriteText p t])).

(** [p.chmod(m)] *)
Definition chmod (p : string) (m : N) : IO unit :=
  fun w =>
    match fs w !! p with
    | None => (Raise FileNotFoundError, w)
    | Some f =>
        (Ok tt, mkWorld (<[p := mkFile (content f) m]> (fs w)) (net w)
                  (trace w ++ [Chmod p m]))
    end.

(** [creds.expired], [creds.valid], [creds.refresh(Request())] *)
Definition creds_expired (c : Credentials) : IO bool :=
  fun w => (Ok (expired (net w) c), w).
Definition creds_valid (c : Credentials) : IO bool :=
  fun w => (Ok (valid (net w) c), w).
Definition creds_refresh (c : Credentials) : IO Credentials :=
  fun w =>
    let '(r, n) := refresh (net w) c in
    (match r with Some c' => Ok c' | None => Raise RefreshError end,
     mkWorld (fs w) n (trace w ++ [RefreshCall c])).

(** The [token_data] dict of [_save_token]; [list(creds.scopes)] raises on a
    value that cannot be walked. *)
Definition token_data_of (creds : Credentials) : result pyval :=
  rbind (if truthy (scopes creds)
         then rbind (py_iter (scopes creds)) (fun l => Ok (VList l))
         else Ok SCOPES) (fun scopes_list =>
  Ok (VDict [
    ("token", token creds);
    ("refresh_token", refresh_token creds);
    ("token_uri", token_uri creds);
    ("client_id", client_id creds);
    ("client_secret", client_secret creds);
    ("scopes", scopes_list)])).

(** [0o600] *)
Definition owner_rw : N := 384.

(** [_save_token] *)
Definition _save_token (creds : Credentials) (token_path : string) : IO unit :=
  token_data <- lift (token_data_of creds) ;;
  write_text token_path (Document token_data) ;;;
  chmod token_path owner_rw.

(** The credential the module builds from the token file. *)
Definition creds_of_token_data (token_data : pyval) : result Credentials :=
  rbind (py_get token_data "token" VNone) (fun tok =>
  rbind (py_get token_data "refresh_token" VNone) (fun rt =>
  rbind (py_get token_data "token_uri" DEFAULT_TOKEN_URI) (fun uri =>
  rbind (py_get token_data "client_id" VNone) (fun cid =>
  rbind (py_get token_data "client_secret" VNone) (fun sec =>
  rbind (py_get token_data "scopes" SCOPES) (fun sc =>
  Ok (mkCredentials tok rt uri cid sec sc None))))))).

(** The credential the module builds from an app-registration entry. *)
Definition creds_of_client_info (creds : Credentials) (client_info : pyval)
  : result Credentials :=
  rbind (py_get client_info "token_uri" DEFAULT_TOKEN_URI) (fun uri =>
  rbind (py_get client_info "client_id" VNone) (fun cid =>
  rbind (py_get client_info "client_secret" VNone) (fun sec =>
  Ok (mkCredentials (token creds) (refresh_token creds) uri cid sec SCOPES None)))).

(** [load_credentials], lines 55 to 59: "If credentials are expired and we
    can refresh, do so". *)
Definition refresh_if_expired (creds : Credentials) (token_path : string)
  : IO Credentials :=
  is_expired <- creds_expired creds ;;
  if is_expired && truthy (refresh_token creds) then
    creds' <- creds_refresh creds ;;
    _save_token creds' token_path ;;;
    ret creds'
  else ret creds.

(** [load_credentials], lines 61 to 81: "If we still don't have valid
    credentials and have a credentials file, try to get
    client_id/client_secret from there for refresh", and the [return]. *)
Definition refresh_with_client_info (creds : Credentials)
    (credentials_path token_path : string) : IO Credentials :=
  is_valid <- creds_valid creds ;;
  have_file <- path_exists credentials_path ;;
  if negb is_valid && truthy (refresh_token creds) && have_file then
    cred_data <- read_json credentials_path ;;
    installed <- lift (py_get cred_data "installed" VNone) ;;
    client_info <- (if truthy installed then ret installed
                    else lift (py_get cred_data "web" (VDict []))) ;;
    if truthy client_info then
      creds <- lift (creds_of_client_info creds client_info) ;;
      creds' <- creds_refresh creds ;;
      _save_token creds' token_path ;;;
      ret creds'
    else ret creds
  else ret creds.

(** [load_credentials] *)
Definition load_credentials (credentials_path token_path : string) : IO Credentials :=
  let token_path := expanduser token_path in
  let credentials_path := expanduser credentials_path in
  present <- path_exists token_path ;;
  if negb present then raise FileNotFoundError else
  token_data <- read_json token_path ;;
  creds <- lift (creds_of_token_data token_data) ;;
  creds <- refresh_if_expired creds token_path ;;
  refresh_with_client_info creds credentials_path token_path.

(** The token file is there and holds the JSON document [token_data]. *)
Definition token_file_holds (w : world Net) (token_path : string)
    (token_data : pyval) : Prop :=
  exists m, fs w !! expanduser token_path = Some (mkFile (Document token_data) m).

(** What every run of a step keeps: it never reports a missing file, and it
    only adds to the trace. *)
Definition steady {A} (w : world Net) (out : result A * world Net) : Prop :=
  fst out <> Raise FileNotFoundError /\
  exists more, trace (snd out) = trace w ++ more.

(** What both refresh steps of [load_credentials] do once they refresh:
    [creds.refresh(Request())], then [_save_token(creds, token_path)]; the
    refreshed credential is what the step goes on with. *)
Definition refresh_and_save (creds : Credentials) (token_path : string)
  : IO Credentials :=
  creds' <- creds_refresh creds ;;
  _save_token creds' token_path ;;;
  ret creds'.

(** [_save_token(creds, token_path)] and then [load_credentials] on the same
    token path. *)
Definition save_then_load (creds : Credentials)
    (credentials_path token_path : string) : IO Credentials :=
  _save_token creds (expanduser token_path) ;;;
  load_credentials credentials_path token_path.

End WithLibraries.

(** How many calls of [refresh] a trace records, and whether a path was
    written. *)
Fixpoint refresh_calls (t : list effect) : nat :=
  match t with
  | [] => 0
  | RefreshCall _ :: t' => S (refresh_calls t')
  | _ :: t' => refresh_calls t'
  end.

Fixpoint writes (t : list effect) : nat :=
  match t with
  | [] => 0
  | WriteText _ _ :: t' => S (writes t')
  | _ :: t' => writes t'
  end.

(** An effect that leaves every file but [p] alone and sets no mode but
    [0o600]. *)
Definition on_path (p : string) (e : effect) : Prop :=
  match e with
  | RefreshCall _ => True
  | WriteText q _ => q = p
  | Chmod q m => q = p /\ m = owner_rw
  end.

(** What a run from [w] to [w'] did, with [p] the token file: it only added
    to the trace; it called [refresh] at most [k] times and wrote no more
    often than it refreshed; it wrote [p] only, and no other file changed;
    when it wrote nothing the disk is as it was, and when it wrote, [p] holds
    a JSON document under mode [0o600]. *)
Definition footprint {Net} (p : string) (k : nat) (w w' : world Net) : Prop :=
  exists more,
    trace w' = trace w ++ more /\
    Forall (on_path p) more /\
    refresh_calls more <= k /\
    writes more <= refresh_calls more /\
    (forall q, q <> p -> fs w' !! q = fs w !! q) /\
    (writes more = 0 -> fs w' = fs w) /\
    (0 < writes more ->
     exists doc, fs w' !! p = Some (mkFile (Document doc) owner_rw)).

End Auth.

(** ** models.py *)
Module Models.

(** [datetime.date] and [datetime.datetime] objects, with what the package
    asks of them ([tzinfo], [isoformat()]) and the validators pydantic runs on
    a field of each type. *)
Class PyDatetime := {
  py_date : Type;
  py_datetime : Type;
  py_tzinfo : Type;
  tzinfo : py_datetime -> option py_tzinfo;
  date_isoformat : py_date -> string;
  isoformat : py_datetime -> string;
  validate_date : pyval -> result py_date;
  validate_datetime : pyval -> result py_datetime;
}.

(** A pydantic model: [cls.model_validate(data)]. *)
Class Model (R : Type) := {
  model_validate : pyval -> result R;
}.

(** [from_api_response] of [Event], [Calendar] and [FreeBusyResponse] *)
Definition from_api_response {R} `{Model R} (data : pyval) : result R :=
  model_validate data.

(** pydantic reports an exception of a validator as a validation error. *)
Definition validation {A} (r : result A) : result A :=
  match r with
  | Ok a => Ok a
  | Raise _ => Raise ValidationError
  end.

(** A field declared with an alias under [populate_by_name]: read under the
    alias, or else under the attribute name. *)
Definition field (d : dict) (alias name : string) : option pyval :=
  match dict_lookup alias d with
  | Some v => Some v
  | None => dict_lookup name d
  end.

(** [Optional[T] = None] *)
Definition optional {A} (validate : pyval -> result A) (v : option pyval)
  : result (option A) :=
  match v with
  | None => Ok None
  | Some VNone => Ok None
  | Some x => rbind (validation (validate x)) (fun a => Ok (Some a))
  end.

Definition validate_str (v : pyval) : result string :=
  match v with
  | VStr s => Ok s
  | _ => Raise ValidationError
  end.

Definition validate_dict (v : pyval) : result dict :=
  match v with
  | VDict d => Ok d
  | _ => Raise ValidationError
  end.

(** [list[T]] *)
Definition validate_list {A} (validate : pyval -> result A) (v : pyval)
  : result (list A) :=
  match v with
  | VList l => traverse (fun x => validation (validate x)) l
  | _ => Raise ValidationError
  end.

Section WithDatetime.
Context {pydt : PyDatetime}.

Record EventDateTime := mkEventDateTime {
  date : option py_date;
  date_time : option py_datetime;
  time_zone : option string;
}.

(** [EventDateTime.check_date_or_datetime] *)
Definition check_date_or_datetime (self : EventDateTime) : result EventDateTime :=
  match date self, date_time self with
  | None, None => Raise ValueError
  | _, _ => Ok self
  end.

(** [EventDateTime(date=..., date_time=..., time_zone=...)] *)
Definition EventDateTime_init (d : option py_date) (t : option py_datetime)
    (z : option string) : result EventDateTime :=
  validation (check_date_or_datetime (mkEventDateTime d t z)).

(** [EventDateTime.model_validate(data)]: the constructor applied to the
    keys of a wire dict. *)
Definition EventDateTime_validate (data : pyval) : result EventDateTime :=
  match data with
  | VDict d =>
      rbind (optional validate_date (field d "date" "date")) (fun dd =>
      rbind (optional validate_datetime (field d "dateTime" "date_time")) (fun dt =>
      rbind (optional validate_str (field d "timeZone" "time_zone")) (fun tz =>
      validation (check_date_or_datetime (mkEventDateTime dd dt tz)))))
  | _ => Raise ValidationError
  end.

(** [EventDateTime.to_api_dict] *)
Definition to_api_dict (self : EventDateTime) : dict :=
  let result : dict := [] in
  let result :=
    match date self with
    | Some d => dict_set "date" (VStr (date_isoformat d)) result
    | None => result
    end in
  let result :=
    match date_time self with
    | Some t => dict_set "dateTime" (VStr (isoformat t)) result
    | None => result
    end in
  let result :=
    match time_zone self with
    | Some z => dict_set "timeZone" (VStr z) result
    | None => result
    end in
  result.

(** pydantic reads the ISO texts [to_api_dict] emits for [self] back as the
    date and the datetime they were printed from. *)
Definition reads_back (self : EventDateTime) : Prop :=
  (forall d, date self = Some d ->
     validate_date (VStr (date_isoformat d)) = Ok d) /\
  (forall t, date_time self = Some t ->
     validate_datetime (VStr (isoformat t)) = Ok t).

Record BusyPeriod := mkBusyPeriod {
  start : py_datetime;
  end_ : py_datetime;
}.

Definition BusyPeriod_validate (data : pyval) : result BusyPeriod :=
  match data with
  | VDict d =>
      match dict_lookup "start" d, dict_lookup "end" d with
      | Some s, Some e =>
          rbind (validation (validate_datetime s)) (fun s' =>
          rbind (validation (validate_datetime e)) (fun e' =>
          Ok (mkBusyPeriod s' e')))
      | _, _ => Raise ValidationError
      end
  | _ => Raise ValidationError
  end.

Record CalendarFreeBusy := mkCalendarFreeBusy {
  busy : list BusyPeriod;
  errors : option (list dict);
}.

Definition CalendarFreeBusy_validate (data : pyval) : result CalendarFreeBusy :=
  match data with
  | VDict d =>
      rbind (match dict_lookup "busy" d with
             | None => Ok []
             | Some v => validate_list BusyPeriod_validate v
             end) (fun b =>
      rbind (optional (validate_list validate_dict) (dict_lookup "errors" d)) (fun e =>
      Ok (mkCalendarFreeBusy b e)))
  | _ => Raise ValidationError
  end.

Record FreeBusyResponse := mkFreeBusyResponse {
  kind : option string;
  time_min : option py_datetime;
  time_max : option py_datetime;
  calendars : gmap string CalendarFreeBusy;
}.

(** [dict[str, CalendarFreeBusy]] *)
Fixpoint validate_calendars (kv : dict) : result (gmap string CalendarFreeBusy) :=
  match kv with
  | [] => Ok ∅
  | (k, v) :: kv' =>
      rbind (CalendarFreeBusy_validate v) (fun c =>
      rbind (validate_calendars kv') (fun m => Ok (<[k := c]> m)))
  end.

Definition FreeBusyResponse_validate (data : pyval) : result FreeBusyResponse :=
  match data with
  | VDict d =>
      rbind (optional validate_str (dict_lookup "kind" d)) (fun k =>
      rbind (optional validate_datetime (field d "timeMin" "time_min")) (fun tmin =>
      rbind (optional validate_datetime (field d "timeMax" "time_max")) (fun tmax =>
      rbind (match dict_lookup "calendars" d with
             | None => Ok ∅
             | Some (VDict kv) => validate_calendars kv
             | Some _ => Raise ValidationError
             end) (fun cals =>
      Ok (mkFreeBusyResponse k tmin tmax cals)))))
  | _ => Raise ValidationError
  end.

(** A free/busy response as the service sends it: per calendar the busy
    periods, which may be left out, and the errors, which may be left out;
    [kind] and the two bounds may be left out too. *)
Record wire_calendar := mkWireCalendar {
  wire_busy : option (list BusyPeriod);
  wire_errors : option (list dict);
}.

Definition period_json (p : BusyPeriod) : pyval :=
  VDict [("start", VStr (isoformat (start p))); ("end", VStr (isoformat (end_ p)))].

Definition calendar_json (c : wire_calendar) : pyval :=
  VDict (match wire_busy c with
         | Some l => [("busy", VList (map period_json l))]
         | None => []
         end ++
         match wire_errors c with
         | Some l => [("errors", VList (map VDict l))]
         | None => []
         end).

Definition freebusy_json (k : option string) (tmin tmax : option py_datetime)
    (cals : list (string * wire_calendar)) : pyval :=
  VDict (match k with
         | Some x => [("kind", VStr x)]
         | None => []
         end ++
         match tmin with
         | Some t => [("timeMin", VStr (isoformat t))]
         | None => []
         end ++
         match tmax with
         | Some t => [("timeMax", VStr (isoformat t))]
         | None => []
         end ++
         [("calendars", VDict (map (fun kc => (fst kc, calendar_json (snd kc))) cals))]).


#[export] Instance FreeBusyResponse_model : Model FreeBusyResponse :=
  {| model_validate := FreeBusyResponse_validate |}.

End WithDatetime.

End Models.

(** ** The calendar service as the resource wrappers reach it *)
Module Service.

(** The methods of the discovery-built service the package calls. *)
Inductive method :=
  | events_list
  | events_get
  | events_insert
  | events_update
  | events_patch
  | events_delete
  | events_move
  | events_instances
  | calendarList_list
  | calendarList_get
  | calendars_insert
  | calendars_delete
  | calendars_clear
  | freebusy_query.

Record request := mkRequest {
  meth : method;
  kwargs : dict;
}.

(** The service answers the requests it receives with [pending], in order (a
    decoded JSON body, or an error of the transport), and has nothing to say
    once they are used up; [calls] are the requests it has received. *)
Record service := mkService {
  pending : list (result pyval);
  calls : list request;
}.

(** [.execute()] of a method called with its keyword arguments: one round
    trip. *)
Definition execute (m : method) (kw : dict) : M service pyval :=
  fun s =>
    let received := calls s ++ [mkRequest m kw] in
    match pending s with
    | [] => (Raise HttpError, mkService [] received)
    | r :: rs => (r, mkService rs received)
    end.

(** A page of a listing as the service sends it: the [items] array, which
    may be left out, and the cursor, which may be left out or empty. *)
Record page := mkPage {
  items : option (list pyval);
  cursor : option string;
}.

Definition page_response (p : page) : pyval :=
  VDict (match items p with
         | Some l => [("items", VList l)]
         | None => []
         end ++
         match cursor p with
         | Some c => [("nextPageToken", VStr c)]
         | None => []
         end).

Definition page_items (p : page) : list pyval :=
  match items p with
  | Some l => l
  | None => []
  end.

(** The cursor is present and not empty. *)
Definition has_cursor (p : page) : bool :=
  match cursor p with
  | Some c => negb (String.eqb c "")
  | None => false
  end.

(** What [result.get("nextPageToken")] is on the page. *)
Definition page_token (p : page) : pyval :=
  match cursor p with
  | Some c => VStr c
  | None => VNone
  end.

(** The cursor a page token stands for: [None] is no cursor. *)
Definition token_cursor (tok : pyval) : option pyval :=
  match tok with
  | VNone => None
  | x => Some x
  end.

(** The cursor a request carries. *)
Definition request_cursor (r : request) : option pyval :=
  dict_lookup "pageToken" (kwargs r).

(** What a listing that walks the pages [ps] and then [last] comes to, from
    the service [s] whose further answers are [rest]: it returns [recs], the
    service has received one request of method [m] per page, the first
    with no cursor and each next one with the cursor of the page before,
    and the answers after [last] are still to come. *)
Definition walks_pages {R} (m : method) (ps : list page) (rest : list (result pyval))
    (s : service) (recs : list R)
    (out : option (result (list R) * service)) : Prop :=
  exists reqs,
    out = Some (Ok recs, mkService rest (calls s ++ reqs)) /\
    map meth reqs = map (fun _ => m) (None :: map Some ps) /\
    map request_cursor reqs = None :: map (fun p => Some (page_token p)) ps.

(** One round trip from [s] to [s']: the service has received one more
    request, of method [m], and has given its next answer. *)
Definition one_round_trip (m : method) (s s' : service) : Prop :=
  exists kw,
    calls s' = calls s ++ [mkRequest m kw] /\
    pending s' = tail (pending s).

(** The first answer the service has pending carries no page token: it is
    an error, or has no truthy [nextPageToken]. *)
Definition first_page_is_last (s : service) : Prop :=
  forall d rest,
    pending s = Ok (VDict d) :: rest ->
    truthy (dict_get d "nextPageToken" VNone) = false.

(** The part of a dict a key takes: one item when there is a value, none
    otherwise. *)
Definition entry (k : string) (v : option pyval) : dict :=
  match v with
  | Some x => [(k, x)]
  | None => []
  end.

End Service.

(** ** events.py *)
Module Events.
Import Models Service.

Section WithModels.
Context {pydt : PyDatetime} {Event : Type} {event_model : Model Event}.

(** [start] and [end] are a plain [datetime] or an [EventDateTime]. *)
Inductive time_arg :=
  | Plain (value : py_datetime)
  | Structured (value : EventDateTime).

(** A time bound that is left out or carries a timezone. *)
Definition aware_bound (t : option py_datetime) : Prop :=
  match t with
  | Some t => is_Some (tzinfo t)
  | None => True
  end.

(** [_ensure_isoformat] *)
Definition _ensure_isoformat (dt : py_datetime) : result string :=
  match tzinfo dt with
  | None => Raise ValueError
  | Some _ => Ok (isoformat dt)
  end.

(** [_to_event_datetime] *)
Definition _to_event_datetime (value : time_arg) (time_zone : option string)
  : result dict :=
  match value with
  | Structured e => Ok (to_api_dict e)
  | Plain value =>
      match tzinfo value with
      | None => Raise ValueError
      | Some _ =>
          let result : dict := [("dateTime", VStr (isoformat value))] in
          match time_zone with
          | Some z => Ok (dict_set "timeZone" (VStr z) result)
          | None => Ok result
          end
      end
  end.

(** [{"email": a} if isinstance(a, str) else a] *)
Definition attendee_entry (a : pyval) : pyval :=
  match a with
  | VStr _ => VDict [("email", a)]
  | _ => a
  end.

(** [_build_event_body] *)
Definition _build_event_body
    (summary description location : option string)
    (start end_ : option time_arg)
    (time_zone : option string)
    (attendees : option (list pyval))
    (recurrence : option (list string))
    (body : option dict) : result dict :=
  match body with
  | Some body => Ok body
  | None =>
      let result : dict := [] in
      let result :=
        match summary with
        | Some x => dict_set "summary" (VStr x) result
        | None => result
        end in
      let result :=
        match description with
        | Some x => dict_set "description" (VStr x) result
        | None => result
        end in
      let result :=
        match location with
        | Some x => dict_set "location" (VStr x) result
        | None => result
        end in
      rbind (match start with
             | Some x => rbind (_to_event_datetime x time_zone) (fun d =>
                         Ok (dict_set "start" (VDict d) result))
             | None => Ok result
             end) (fun result =>
      rbind (match end_ with
             | Some x => rbind (_to_event_datetime x time_zone) (fun d =>
                         Ok (dict_set "end" (VDict d) result))
             | None => Ok result
             end) (fun result =>
      let result :=
        match attendees with
        | Some l => dict_set "attendees" (VList (map attendee_entry l)) result
        | None => result
        end in
      let result :=
        match recurrence with
        | Some l => dict_set "recurrence" (VList (map VStr l)) result
        | None => result
        end in
      Ok result))
  end.

(** [EventsResource._build_list_kwargs] *)
Definition _build_list_kwargs
    (calendar_id : string)
    (time_min time_max : option py_datetime)
    (max_results : Z)
    (single_events : bool)
    (order_by q : option string)
    (page_token : pyval)
    (show_deleted : bool) : result dict :=
  let kwargs : dict := [
    ("calendarId", VStr calendar_id);
    ("maxResults", VInt max_results);
    ("singleEvents", VBool single_events);
    ("showDeleted", VBool show_deleted)] in
  rbind (match time_min with
         | Some t => rbind (_ensure_isoformat t) (fun s =>
                     Ok (dict_set "timeMin" (VStr s) kwargs))
         | None => Ok kwargs
         end) (fun kwargs =>
  rbind (match time_max with
         | Some t => rbind (_ensure_isoformat t) (fun s =>
                     Ok (dict_set "timeMax" (VStr s) kwargs))
         | None => Ok kwargs
         end) (fun kwargs =>
  let kwargs :=
    match order_by with
    | Some x => dict_set "orderBy" (VStr x) kwargs
    | None => kwargs
    end in
  let kwargs :=
    match q with
    | Some x => dict_set "q" (VStr x) kwargs
    | None => kwargs
    end in
  let kwargs :=
    match page_token with
    | VNone => kwargs
    | x => dict_set "pageToken" x kwargs
    end in
  Ok kwargs)).

(** [[Event.from_api_response(item) for item in result.get("items", [])]] *)
Definition decode_items (result : pyval) : M service (list Event) :=
  items <- lift (py_get result "items" (VList [])) ;;
  items <- lift (py_iter items) ;;
  lift (traverse from_api_response items).

(** [EventsResource.list] ([list_]: the name [list] is the type's) *)
Definition list_
    (calendar_id : string)
    (time_min time_max : option py_datetime)
    (max_results : Z)
    (single_events : bool)
    (order_by q : option string)
    (page_token : pyval)
    (show_deleted : bool) : M service (list Event) :=
  kwargs <- lift (_build_list_kwargs calendar_id time_min time_max max_results
                    single_events order_by q page_token show_deleted) ;;
  result <- execute events_list kwargs ;;
  decode_items result.

(** One turn of the [while True] loop of [EventsResource.list_all]: the
    events so far and the page token the turn ends with. *)
Definition list_all_turn
    (calendar_id : string)
    (time_min time_max : option py_datetime)
    (single_events : bool)
    (order_by q : option string)
    (show_deleted : bool)
    (page_token : pyval)
    (all_events : list Event) : M service (list Event * pyval) :=
  kwargs <- lift (_build_list_kwargs calendar_id time_min time_max 250
                    single_events order_by q page_token show_deleted) ;;
  result <- execute events_list kwargs ;;
  new <- decode_items result ;;
  page_token <- lift (py_get result "nextPageToken" VNone) ;;
  ret (all_events ++ new, page_token).

(** The loop, with the number of turns it may take; [None] when they are
    used up before the loop breaks. *)
Fixpoint list_all_loop (fuel : nat)
    (calendar_id : string)
    (time_min time_max : option py_datetime)
    (single_events : bool)
    (order_by q : option string)
    (show_deleted : bool)
    (page_token : pyval)
    (all_events : list Event)
    (s : service) : option (result (list Event) * service) :=
  match fuel with
  | O => None
  | S fuel' =>
      match list_all_turn calendar_id time_min time_max single_events order_by q
              show_deleted page_token all_events s with
      | (Raise e, s') => Some (Raise e, s')
      | (Ok (all_events, page_token), s') =>
          if negb (truthy page_token) then Some (Ok all_events, s')
          else list_all_loop fuel' calendar_id time_min time_max single_events
                 order_by q show_deleted page_token all_events s'
      end
  end.

(** [EventsResource.list_all] *)
Definition list_all (fuel : nat)
    (calendar_id : string)
    (time_min time_max : option py_datetime)
    (single_events : bool)
    (order_by q : option string)
    (show_deleted : bool)
    (s : service) : option (result (list Event) * service) :=
  list_all_loop fuel calendar_id time_min time_max single_events order_by q
    show_deleted VNone [] s.

(** [EventsResource.create] *)
Definition create
    (calendar_id : string)
    (summary description location : option string)
    (start end_ : option time_arg)
    (attendees : option (list pyval))
    (recurrence : option (list string))
    (time_zone : option string)
    (body : option dict) : M service Event :=
  body <- lift (_build_event_body summary description location start end_
                  time_zone attendees recurrence body) ;;
  result <- execute events_insert
              [("calendarId", VStr calendar_id); ("body", VDict body)] ;;
  lift (from_api_response result).


(** [EventsResource.patch] *)
Definition patch
    (calendar_id event_id : string)
    (summary description location : option string)
    (start end_ : option time_arg)
    (attendees : option (list pyval))
    (recurrence : option (list string))
    (time_zone : option string)
    (body : option dict) : M service Event :=
  body <- lift (_build_event_body summary description location start end_
                  time_zone attendees recurrence body) ;;
  result <- execute events_patch
              [("calendarId", VStr calendar_id); ("eventId", VStr event_id);
               ("body", VDict body)] ;;
  lift (from_api_response result).

(** [EventsResource.instances] *)
Definition instances
    (calendar_id event_id : string)
    (time_min time_max : option py_datetime)
    (max_results : Z) : M service (list Event) :=
  let kwargs : dict := [
    ("calendarId", VStr calendar_id);
    ("eventId", VStr event_id);
    ("maxResults", VInt max_results)] in
  kwargs <- lift (match time_min with
                  | Some t => rbind (_ensure_isoformat t) (fun s =>
                              Ok (dict_set "timeMin" (VStr s) kwargs))
                  | None => Ok kwargs
                  end) ;;
  kwargs <- lift (match time_max with
                  | Some t => rbind (_ensure_isoformat t) (fun s =>
                              Ok (dict_set "timeMax" (VStr s) kwargs))
                  | None => Ok kwargs
                  end) ;;
  result <- execute events_instances kwargs ;;
  decode_items result.

(** [EventsResource.get] *)
Definition get (calendar_id event_id : string) : M service Event :=
  result <- execute events_get
              [("calendarId", VStr calendar_id); ("eventId", VStr event_id)] ;;
  lift (from_api_response result).

(** [EventsResource.delete] *)
Definition delete (calendar_id event_id : string) (send_updates : option string)
  : M service unit :=
  let kwargs : dict :=
    [("calendarId", VStr calendar_id); ("eventId", VStr event_id)] in
  let kwargs :=
    match send_updates with
    | Some x => dict_set "sendUpdates" (VStr x) kwargs
    | None => kwargs
    end in
  execute events_delete kwargs ;;;
  ret tt.


(** A [start] or [end] that is left out, an [EventDateTime], or a plain
    datetime with a timezone. *)
Definition aware_arg (x : option time_arg) : Prop :=
  match x with
  | Some (Plain t) => is_Some (tzinfo t)
  | _ => True
  end.

(** The dict a [start] or [end] goes to the wire as. *)
Definition event_datetime_dict (x : time_arg) (time_zone : option string) : dict :=
  match x with
  | Structured e => to_api_dict e
  | Plain t => ("dateTime", VStr (isoformat t)) :: entry "timeZone" (VStr <$> time_zone)
  end.

(** The request body [create] and [patch] assemble from the convenience
    fields. *)
Definition convenience_body
    (summary description location : option string)
    (start end_ : option time_arg)
    (time_zone : option string)
    (attendees : option (list pyval))
    (recurrence : option (list string)) : dict :=
  entry "summary" (VStr <$> summary) ++
  entry "description" (VStr <$> description) ++
  entry "location" (VStr <$> location) ++
  entry "start" ((fun x => VDict (event_datetime_dict x time_zone)) <$> start) ++
  entry "end" ((fun x => VDict (event_datetime_dict x time_zone)) <$> end_) ++
  entry "attendees" ((fun l => VList (map attendee_entry l)) <$> attendees) ++
  entry "recurrence" ((fun l => VList (map VStr l)) <$> recurrence).

(** The keyword arguments [list] and [list_all] send. *)
Definition list_kwargs
    (calendar_id : string)
    (time_min time_max : option py_datetime)
    (max_results : Z)
    (single_events : bool)
    (order_by q : option string)
    (page_token : pyval)
    (show_deleted : bool) : dict :=
  [("calendarId", VStr calendar_id);
   ("maxResults", VInt max_results);
   ("singleEvents", VBool single_events);
   ("showDeleted", VBool show_deleted)] ++
  entry "timeMin" ((fun t => VStr (isoformat t)) <$> time_min) ++
  entry "timeMax" ((fun t => VStr (isoformat t)) <$> time_max) ++
  entry "orderBy" (VStr <$> order_by) ++
  entry "q" (VStr <$> q) ++
  entry "pageToken" (token_cursor page_token).

End WithModels.

End Events.

(** ** calendars.py *)
Module Calendars.
Import Models Service.

Section WithModels.
Context {Calendar : Type} {calendar_model : Model Calendar}.

(** [[Calendar.from_api_response(item) for item in result.get("items", [])]] *)
Definition decode_items (result : pyval) : M service (list Calendar) :=
  items <- lift (py_get result "items" (VList [])) ;;
  items <- lift (py_iter items) ;;
  lift (traverse from_api_response items).

(** [CalendarsResource.list] ([list_]: the name [list] is the type's) *)
Definition list_ (show_deleted show_hidden : bool) (max_results : Z)
    (page_token : pyval) : M service (list Calendar) :=
  let kwargs : dict := [
    ("showDeleted", VBool show_deleted);
    ("showHidden", VBool show_hidden);
    ("maxResults", VInt max_results)] in
  let kwargs :=
    match page_token with
    | VNone => kwargs
    | x => dict_set "pageToken" x kwargs
    end in
  result <- execute calendarList_list kwargs ;;
  decode_items result.

(** One turn of the [while True] loop of [CalendarsResource.list_all]. *)
Definition list_all_turn (show_deleted show_hidden : bool)
    (page_token : pyval) (all_calendars : list Calendar)
  : M service (list Calendar * pyval) :=
  let kwargs : dict := [
    ("showDeleted", VBool show_deleted);
    ("showHidden", VBool show_hidden);
    ("maxResults", VInt 250)] in
  let kwargs :=
    match page_token with
    | VNone => kwargs
    | x => dict_set "pageToken" x kwargs
    end in
  result <- execute calendarList_list kwargs ;;
  new <- decode_items result ;;
  page_token <- lift (py_get result "nextPageToken" VNone) ;;
  ret (all_calendars ++ new, page_token).

(** The loop, with the number of turns it may take; [None] when they are
    used up before the loop breaks. *)
Fixpoint list_all_loop (fuel : nat) (show_deleted show_hidden : bool)
    (page_token : pyval) (all_calendars : list Calendar) (s : service)
  : option (result (list Calendar) * service) :=
  match fuel with
  | O => None
  | S fuel' =>
      match list_all_turn show_deleted show_hidden page_token all_calendars s with
      | (Raise e, s') => Some (Raise e, s')
      | (Ok (all_calendars, page_token), s') =>
          if negb (truthy page_token) then Some (Ok all_calendars, s')
          else list_all_loop fuel' show_deleted show_hidden page_token
                 all_calendars s'
      end
  end.

(** [CalendarsResource.list_all] *)
Definition list_all (fuel : nat) (show_deleted show_hidden : bool) (s : service)
  : option (result (list Calendar) * service) :=
  list_all_loop fuel show_deleted show_hidden VNone [] s.

(** The request a turn of [CalendarsResource.list_all] sends for a page
    token. *)
Definition list_all_request (show_deleted show_hidden : bool) (tok : pyval)
  : request :=
  mkRequest calendarList_list
    (let kwargs : dict := [
       ("showDeleted", VBool show_deleted);
       ("showHidden", VBool show_hidden);
       ("maxResults", VInt 250)] in
     match tok with
     | VNone => kwargs
     | x => dict_set "pageToken" x kwargs
     end).

(** [CalendarsResource.get] *)
Definition get (calendar_id : string) : M service Calendar :=
  result <- execute calendarList_get [("calendarId", VStr calendar_id)] ;;
  lift (from_api_response result).

(** [CalendarsResource.create] *)
Definition create (summary : string) (description time_zone location : option string)
  : M service Calendar :=
  let body : dict := [("summary", VStr summary)] in
  let body :=
    match description with
    | Some x => dict_set "description" (VStr x) body
    | None => body
    end in
  let body :=
    match time_zone with
    | Some x => dict_set "timeZone" (VStr x) body
    | None => body
    end in
  let body :=
    match location with
    | Some x => dict_set "location" (VStr x) body
    | None => body
    end in
  result <- execute calendars_insert [("body", VDict body)] ;;
  lift (from_api_response result).

(** [CalendarsResource.delete] *)
Definition delete (calendar_id : string) : M service unit :=
  execute calendars_delete [("calendarId", VStr calendar_id)] ;;;
  ret tt.

(** [CalendarsResource.clear] *)
Definition clear (calendar_id : string) : M service unit :=
  execute calendars_clear [("calendarId", VStr calendar_id)] ;;;
  ret tt.

End WithModels.

End Calendars.

(** ** freebusy.py *)
Module FreeBusy.
Import Models Service.

Section WithModels.
Context {pydt : PyDatetime}.

(** [FreeBusyResource.query] *)
Definition query
    (calendar_ids : list string)
    (time_min time_max : py_datetime)
    (time_zone : option string)
    (group_expansion_max calendar_expansion_max : option Z)
  : M service FreeBusyResponse :=
  match tzinfo time_min, tzinfo time_max with
  | Some _, Some _ =>
      let body : dict := [
        ("timeMin", VStr (isoformat time_min));
        ("timeMax", VStr (isoformat time_max));
        ("items", VList (map (fun cal_id => VDict [("id", VStr cal_id)])
                           calendar_ids))] in
      let body :=
        match time_zone with
        | Some x => dict_set "timeZone" (VStr x) body
        | None => body
        end in
      let body :=
        match group_expansion_max with
        | Some x => dict_set "groupExpansionMax" (VInt x) body
        | None => body
        end in
      let body :=
        match calendar_expansion_max with
        | Some x => dict_set "calendarExpansionMax" (VInt x) body
        | None => body
        end in
      result <- execute freebusy_query [("body", VDict body)] ;;
      lift (from_api_response result)
  | _, _ => raise ValueError
  end.

(** The request body [query] sends. *)
Definition query_body
    (calendar_ids : list string)
    (time_min time_max : py_datetime)
    (time_zone : option string)
    (group_expansion_max calendar_expansion_max : option Z) : dict :=
  [("timeMin", VStr (isoformat time_min));
   ("timeMax", VStr (isoformat time_max));
   ("items", VList (map (fun cal_id => VDict [("id", VStr cal_id)]) calendar_ids))] ++
  entry "timeZone" (VStr <$> time_zone) ++
  entry "groupExpansionMax" (VInt <$> group_expansion_max) ++
  entry "calendarExpansionMax" (VInt <$> calendar_expansion_max).

End WithModels.

End FreeBusy.

(** ** Stand-ins for the libraries, for running the code on concrete inputs *)
Module Doubles.
Import Auth Models Service.

(** A home directory under which [~] expands; new files get [0o644]. *)
Definition os : Os := {|
  expanduser p :=
    match p with
    | String "~"%char rest => String.append "/home/user" rest
    | _ => p
    end;
  create_mode := 420;
|}.

(** An authorization server: the access tokens it no longer honours, and what
    its token endpoint answers to the next exchanges (a new access token, or
    a refusal). *)
Record server := mkServer {
  stale : list string;
  answers : list (option string);
}.

Definition is_stale (n : server) (c : Credentials) : bool :=
  match token c with
  | VStr t => bool_decide (t ∈ stale n)
  | _ => false
  end.

(** What [refresh] leaves: the new access token, and an expiry. *)
Definition with_token (c : Credentials) (t : string) : Credentials :=
  mkCredentials (VStr t) (refresh_token c) (token_uri c) (client_id c)
    (client_secret c) (scopes c) (Some 3600%Z).

(** google-auth as the module meets it: a credential without expiry is never
    expired, one with an expiry is expired when the server no longer honours
    its token; a credential is valid when it has a token and is not
    expired; [refresh] takes the next answer of the endpoint. *)
Definition auth : GoogleAuth server := {|
  expired n c :=
    match expiry c with
    | None => false
    | Some _ => is_stale n c
    end;
  valid n c :=
    match token c with
    | VNone => false
    | _ =>
        negb match expiry c with
             | None => false
             | Some _ => is_stale n c
             end
    end;
  refresh n c :=
    match answers n with
    | [] => (None, n)
    | Some t :: rest => (Some (with_token c t), mkServer (stale n) rest)
    | None :: rest => (None, mkServer (stale n) rest)
    end;
|}.

Definition token_file_path : string := "/home/user/secrets/google-oauth/token.json".
Definition credentials_file_path : string :=
  "/home/user/secrets/google-oauth/credentials.json".

(** The token file of the specification's scenario. *)
Definition token_T1 : pyval := VDict [
  ("token", VStr "T1");
  ("refresh_token", VStr "R1");
  ("client_id", VStr "C");
  ("client_secret", VStr "S")].

Definition creds_T1 : Credentials :=
  mkCredentials (VStr "T1") (VStr "R1") DEFAULT_TOKEN_URI (VStr "C") (VStr "S")
    SCOPES None.

Definition disk_T1 : gmap string file :=
  {[ token_file_path := mkFile (Document token_T1) 420 ]}.

(** An app-registration file of the "installed" kind. *)
Definition app_registration : pyval := VDict [
  ("installed", VDict [("client_id", VStr "C2"); ("client_secret", VStr "S2")])].

(** A token file with a refresh token and no access token. *)
Definition token_R1_only : pyval := VDict [("refresh_token", VStr "R1")].

Definition creds_R1_only : Credentials :=
  mkCredentials VNone (VStr "R1") DEFAULT_TOKEN_URI VNone VNone SCOPES None.

(** The scenario: [T1] has run out, the endpoint answers [T2]. *)
Definition world_T1 : world server :=
  mkWorld disk_T1 (mkServer ["T1"] [Some "T2"]) [].

Definition creds_T2 : Credentials :=
  mkCredentials (VStr "T2") (VStr "R1") DEFAULT_TOKEN_URI (VStr "C") (VStr "S")
    SCOPES None.

(** The same token file with a fresh [T1]. *)
Definition world_fresh : world server :=
  mkWorld disk_T1 (mkServer [] []) [].

(** The same token file when the endpoint refuses the exchange. *)
Definition world_refused : world server :=
  mkWorld disk_T1 (mkServer ["T1"] [None]) [].

(** The same token file next to an app-registration file, when the first
    token the endpoint hands out has run out as well. *)
Definition world_twice : world server :=
  mkWorld (<[credentials_file_path := mkFile (Document app_registration) 420]> disk_T1)
    (mkServer ["T1"; "T1b"] [Some "T1b"; Some "T2"]) [].

(** A token file with no access token, and no app-registration file. *)
Definition world_R1_only : world server :=
  mkWorld {[ token_file_path := mkFile (Document token_R1_only) 420 ]}
    (mkServer [] []) [].

(** Dates and datetimes given by their ISO text; a datetime is aware when the
    text carries an offset. *)
Fixpoint has_offset (s : string) : bool :=
  match s with
  | EmptyString => false
  | String c s' => Ascii.eqb c "+"%char || Ascii.eqb c "Z"%char || has_offset s'
  end.

Definition validate_text (v : pyval) : result string :=
  match v with
  | VStr s => Ok s
  | _ => Raise ValidationError
  end.

Definition datetimes : PyDatetime := {|
  py_date := string;
  py_datetime := string;
  py_tzinfo := unit;
  tzinfo t := if has_offset t then Some tt else None;
  date_isoformat d := d;
  isoformat t := t;
  validate_date := validate_text;
  validate_datetime := validate_text;
|}.

(** Datetimes by their ISO text again, read back the way pydantic reads
    them: a text whose UTC offset, after its plus sign, has seconds
    ([+05:30:15], which [isoformat] prints) is refused. *)
Fixpoint after_plus (s : string) : option string :=
  match s with
  | EmptyString => None
  | String c s' => if Ascii.eqb c "+"%char then Some s' else after_plus s'
  end.

Definition offset_with_seconds (s : string) : bool :=
  match after_plus s with
  | Some offset => Nat.ltb 5 (String.length offset)
  | None => false
  end.

Definition validate_iso_datetime (v : pyval) : result string :=
  match v with
  | VStr s => if offset_with_seconds s then Raise ValidationError else Ok s
  | _ => Raise ValidationError
  end.

Definition strict_datetimes : PyDatetime := {|
  py_date := string;
  py_datetime := string;
  py_tzinfo := unit;
  tzinfo t := if has_offset t then Some tt else None;
  date_isoformat d := d;
  isoformat t := t;
  validate_date := validate_text;
  validate_datetime := validate_iso_datetime;
|}.

(** A timed event with a zone, and one whose offset has seconds. *)
Definition timed_event_strict : @EventDateTime strict_datetimes :=
  @mkEventDateTime strict_datetimes None (Some "2024-05-01T09:00:00+00:00")
    (Some "America/Denver").

Definition seconds_offset_event : @EventDateTime strict_datetimes :=
  @mkEventDateTime strict_datetimes None (Some "2024-05-01T09:00:00+05:30:15")
    None.

(** A timed event with a zone. *)
Definition timed_event : @EventDateTime datetimes :=
  @mkEventDateTime datetimes None (Some "2024-05-01T09:00:00+00:00")
    (Some "America/Denver").

Definition aware_nine : @py_datetime datetimes := "2024-05-01T09:00:00+00:00".

(** Records kept as the wire dict they were decoded from. *)
Definition raw_model : Model dict := {|
  model_validate v :=
    match v with
    | VDict d => Ok d
    | _ => Raise ValidationError
    end;
|}.

(** The listing of the specification's scenario: pages of 250, 250 and 10
    items with the cursors [p2], [p3] and the empty one. *)
Definition raw_item : dict := [("id", VStr "x")].
Definition pages_250_250 : list page := [
  mkPage (Some (repeat (VDict raw_item) 250)) (Some "p2");
  mkPage (Some (repeat (VDict raw_item) 250)) (Some "p3")].
Definition page_10 : page := mkPage (Some (repeat (VDict raw_item) 10)) (Some "").
Definition three_pages : service :=
  mkService (map (fun p => Ok (page_response p)) (pages_250_250 ++ [page_10])) [].

(** The free/busy response of the specification's scenario: [cal1] with an
    empty busy list, [cal2] with an error. *)
Definition scenario_calendars : list (string * @wire_calendar datetimes) := [
  ("cal1", mkWireCalendar (Some []) None);
  ("cal2", mkWireCalendar None (Some [[("domain", VStr "x")]]))].

Definition scenario_freebusy : service :=
  mkService [Ok (@freebusy_json datetimes None None None scenario_calendars)] [].

(** A service about to answer one request with an event. *)
Definition one_event : service :=
  mkService [Ok (VDict [("id", VStr "e1")])] [].


(** A token file that is not JSON, and one that holds a JSON list. *)
Definition world_garbage : world server :=
  mkWorld {[ token_file_path := mkFile (Garbage "not json") 420 ]}
    (mkServer [] []) [].

Definition world_json_list : world server :=
  mkWorld {[ token_file_path := mkFile (Document (VList [VStr "T1"])) 420 ]}
    (mkServer [] []) [].

(** A token file with an access token that has run out and no refresh
    token. *)
Definition token_T1_only : pyval := VDict [("token", VStr "T1")].

Definition creds_T1_only : Credentials :=
  mkCredentials (VStr "T1") VNone DEFAULT_TOKEN_URI VNone VNone SCOPES None.

Definition world_T1_only : world server :=
  mkWorld {[ token_file_path := mkFile (Document token_T1_only) 420 ]}
    (mkServer ["T1"] [Some "T2"]) [].

(** No token file yet; the server honours [T2]. *)
Definition world_empty : world server :=
  mkWorld ∅ (mkServer [] []) [].

(** An app-registration document with both kinds of entry, next to a token
    file without access token. *)
Definition app_both : dict := [
  ("web", VDict [("client_id", VStr "Cw"); ("client_secret", VStr "Sw")]);
  ("installed", VDict [("client_id", VStr "Ci"); ("client_secret", VStr "Si")])].

Definition world_app_both : world server :=
  mkWorld (<[credentials_file_path := mkFile (Document (VDict app_both)) 420]>
             {[ token_file_path := mkFile (Document token_R1_only) 420 ]})
    (mkServer [] [Some "T2"]) [].

(** Two pages with cursors and then an error of the transport. *)
Definition pages_then_error : service :=
  mkService (map (fun p => Ok (page_response p)) pages_250_250 ++ [Raise HttpError]) [].

(** A free/busy answer in which a busy period of [cal1] has no end. *)
Definition period_without_end : dict := [("start", VStr "2024-05-01T09:00:00+00:00")].

Definition freebusy_bad_period : dict := [
  ("calendars",
   VDict [("cal1", VDict [("busy", VList [VDict period_without_end])])])].

Definition bad_period_freebusy : service :=
  mkService [Ok (VDict freebusy_bad_period)] [].

End Doubles.

(** * Properties *)

(** ** Credential loading *)
Module AuthSpec.
Import Auth.

Section WithLibraries.
Context {Net : Type} {lib : GoogleAuth Net} {platform : Os}.

(** With the token file in place, [load_credentials] is its two refresh
    steps on the credential built from the file. *)
Lemma load_credentials_present w cp tp token_data creds :
  token_file_holds w tp token_data ->
  creds_of_token_data token_data = Ok creds ->
  load_credentials cp tp w =
    (creds <- refresh_if_expired creds (expanduser tp) ;;
     refresh_with_client_info creds (expanduser cp) (expanduser tp)) w.
Proof.
  intros [m Hf] Hc.
  unfold load_credentials.
  unfold bind at 1. unfold path_exists at 1. rewrite Hf.
  rewrite bool_decide_eq_true_2 by eauto. cbn [negb].
  unfold bind at 1. unfold read_json at 1. rewrite Hf. cbn [content].
  unfold bind at 1. unfold lift at 1. rewrite Hc. reflexivity.
Qed.

(** Saving writes the document and then sets the mode: on an existing or a
    new file alike the two steps succeed. *)
Lemma save_token_run creds doc p (w : world Net) :
  token_data_of creds = Ok doc ->
  _save_token creds p w =
    (Ok tt, mkWorld (<[p := mkFile (Document doc) owner_rw]> (fs w)) (net w)
              (trace w ++ [WriteText p (Document doc); Chmod p owner_rw])).
Proof.
  intros Hd. unfold _save_token, bind, lift, write_text, chmod. rewrite Hd.
  cbn [fs net trace]. rewrite lookup_insert_eq. cbn [content].
  rewrite insert_insert_eq, <- app_assoc. reflexivity.
Qed.

Lemma save_token_raises creds e p (w : world Net) :
  token_data_of creds = Raise e ->
  _save_token creds p w = (Raise e, w).
Proof.
  intros Hd. unfold _save_token, bind, lift. rewrite Hd. reflexivity.
Qed.

Lemma token_data_of_raises creds e :
  token_data_of creds = Raise e -> e = TypeError.
Proof.
  unfold token_data_of. destruct (truthy (scopes creds)); [|discriminate].
  destruct (scopes creds); cbn; congruence.
Qed.

(** Saving never fails for want of a file, and only adds to the trace. *)
Lemma save_token_cases creds p (w : world Net) :
  (exists doc, token_data_of creds = Ok doc /\
     _save_token creds p w =
       (Ok tt, mkWorld (<[p := mkFile (Document doc) owner_rw]> (fs w)) (net w)
                 (trace w ++ [WriteText p (Document doc); Chmod p owner_rw]))) \/
  _save_token creds p w = (Raise TypeError, w).
Proof.
  destruct (token_data_of creds) as [doc|e] eqn:Hd.
  - left. exists doc. split; [done|]. by apply save_token_run.
  - right. rewrite (save_token_raises _ _ _ _ Hd).
    by rewrite (token_data_of_raises _ _ Hd).
Qed.



Lemma steady_refl {A} (w : world Net) (r : result A) :
  r <> Raise FileNotFoundError -> steady w (r, w).
Proof. intros Hr. split; [done|]. exists []. by rewrite app_nil_r. Qed.

Lemma steady_bind {A B} (m : M (world Net) A) (k : A -> M (world Net) B) (w : world Net) :
  steady w (m w) ->
  (forall a w', m w = (Ok a, w') -> steady w' (k a w')) ->
  steady w (bind m k w).
Proof.
  intros [Hr [more Ht]] Hk. unfold bind.
  destruct (m w) as [[a|e] w'] eqn:Hm; cbn in *.
  - destruct (Hk a w' eq_refl) as [Hr' [more' Ht']].
    split; [done|]. exists (more ++ more'). by rewrite Ht', Ht, app_assoc.
  - split; [|by exists more]. cbn. intros [= ->]. by apply Hr.
Qed.

Lemma steady_lift {A} (r : result A) (w : world Net) :
  r <> Raise FileNotFoundError -> steady w (lift r w).
Proof. apply steady_refl. Qed.

Lemma py_get_not_missing x k d : py_get x k d <> Raise FileNotFoundError.
Proof. destruct x; cbn; congruence. Qed.

Lemma creds_of_client_info_not_missing c x :
  creds_of_client_info c x <> Raise FileNotFoundError.
Proof. destruct x; cbn; congruence. Qed.

Lemma creds_of_token_data_not_missing x :
  creds_of_token_data x <> Raise FileNotFoundError.
Proof. destruct x; cbn; congruence. Qed.

Lemma steady_refresh c (w : world Net) : steady w (creds_refresh c w).
Proof.
  unfold creds_refresh. destruct (refresh (net w) c) as [[c'|] n'].
  - split; [cbn; congruence|]. by eexists.
  - split; [cbn; congruence|]. by eexists.
Qed.

Lemma steady_save c p (w : world Net) : steady w (_save_token c p w).
Proof.
  destruct (save_token_cases c p w) as [(doc & _ & ->)| ->].
  - split; [cbn; congruence|]. by eexists.
  - by apply steady_refl.
Qed.

Lemma steady_refresh_and_save c p (w : world Net) :
  steady w ((creds' <- creds_refresh c ;; _save_token creds' p ;;; ret creds') w).
Proof.
  apply steady_bind; [apply steady_refresh|]. intros c' w' _.
  apply steady_bind; [apply steady_save|]. intros [] w'' _.
  by apply steady_refl.
Qed.

Lemma steady_refresh_if_expired c p (w : world Net) :
  steady w (refresh_if_expired c p w).
Proof.
  unfold refresh_if_expired.
  apply steady_bind; [by apply steady_refl|]. intros b w' _.
  destruct (b && _); [apply steady_refresh_and_save | by apply steady_refl].
Qed.

Lemma steady_refresh_with_client_info c cp tp (w : world Net) :
  steady w (refresh_with_client_info c cp tp w).
Proof.
  unfold refresh_with_client_info.
  apply steady_bind; [by apply steady_refl|]. intros v w1 Hv.
  apply steady_bind; [by apply steady_refl|]. intros present w2 Hp.
  unfold creds_valid in Hv. unfold path_exists in Hp. simplify_eq.
  destruct (negb _ && _ && _) eqn:Hcond; [|by apply steady_refl].
  apply andb_true_iff in Hcond as [_ Hpresent].
  apply bool_decide_eq_true_1 in Hpresent as [f Hf].
  apply steady_bind.
  { unfold read_json. rewrite Hf. destruct (content f); by apply steady_refl. }
  intros cred_data w3 _.
  apply steady_bind; [apply steady_lift, py_get_not_missing|]. intros inst w4 _.
  apply steady_bind.
  { destruct (truthy inst); [by apply steady_refl|].
    apply steady_lift, py_get_not_missing. }
  intros client_info w5 _.
  destruct (truthy client_info); [|by apply steady_refl].
  apply steady_bind; [apply steady_lift, creds_of_client_info_not_missing|].
  intros c2 w6 _. apply steady_refresh_and_save.
Qed.

(** C4: when the stored access token is valid and not expired,
    [load_credentials] returns the credential built from the token file as it
    is and leaves the world untouched: no refresh call, nothing written. *)
Theorem load_credentials_valid_no_network (w : world Net) (cp tp : string)
    (token_data : pyval) (creds : Credentials) :
  token_file_holds w tp token_data ->
  creds_of_token_data token_data = Ok creds ->
  valid (net w) creds = true ->
  expired (net w) creds = false ->
  load_credentials cp tp w = (Ok creds, w).
Proof.
  intros Hf Hc Hv He.
  rewrite (load_credentials_present _ _ _ _ _ Hf Hc).
  unfold bind, refresh_if_expired, refresh_with_client_info, bind,
    creds_expired, creds_valid, path_exists, ret.
  rewrite He. cbn. rewrite Hv. reflexivity.
Qed.

(** Without a refresh token neither step does anything: the credential built
    from the token file is returned as it is, usable or not. *)
Lemma load_credentials_no_refresh_token (w : world Net) (cp tp : string)
    (token_data : pyval) (creds : Credentials) :
  token_file_holds w tp token_data ->
  creds_of_token_data token_data = Ok creds ->
  truthy (refresh_token creds) = false ->
  load_credentials cp tp w = (Ok creds, w).
Proof.
  intros Hf Hc Hr.
  rewrite (load_credentials_present _ _ _ _ _ Hf Hc).
  unfold bind, refresh_if_expired, refresh_with_client_info, bind,
    creds_expired, creds_valid, path_exists, ret.
  rewrite Hr, andb_false_r. cbn. rewrite Hr, andb_false_r. reflexivity.
Qed.

(** Without an app-registration file the second step does nothing either. *)
Lemma refresh_with_client_info_no_file (w : world Net) (cp tp : string)
    (creds : Credentials) :
  fs w !! cp = None ->
  refresh_with_client_info creds cp tp w = (Ok creds, w).
Proof.
  intros Hn. unfold refresh_with_client_info, bind, creds_valid, path_exists, ret.
  rewrite Hn, bool_decide_eq_false_2 by (intros [? ?]; done).
  by rewrite andb_false_r.
Qed.

Lemma creds_of_token_data_expiry token_data creds :
  creds_of_token_data token_data = Ok creds -> expiry creds = None.
Proof. destruct token_data; cbn; try discriminate. by intros [= <-]. Qed.

(** The module builds its credential without an expiry and stores none.
    Under a library that takes a credential without expiry as not expired,
    the first step leaves a credential built from the token file alone. *)
Remark refresh_if_expired_without_expiry (w : world Net) (tp : string)
    (token_data : pyval) (creds : Credentials) :
  (forall n c, expiry c = None -> expired n c = false) ->
  creds_of_token_data token_data = Ok creds ->
  refresh_if_expired creds tp w = (Ok creds, w).
Proof.
  intros Hlib Hc. unfold refresh_if_expired, bind, creds_expired, ret.
  by rewrite (Hlib _ _ (creds_of_token_data_expiry _ _ Hc)).
Qed.

(** Under a library that takes a credential without expiry as not expired,
    and a credential with a token that is not expired as valid, a token file
    with an access token is returned as it is stored, whatever became of the
    token at the server: nothing is refreshed and nothing is written. *)
Lemma load_credentials_without_expiry (w : world Net) (cp tp : string)
    (token_data : pyval) (creds : Credentials) :
  (forall n c, expiry c = None -> expired n c = false) ->
  (forall n c, token c <> VNone -> expired n c = false -> valid n c = true) ->
  token_file_holds w tp token_data ->
  creds_of_token_data token_data = Ok creds ->
  token creds <> VNone ->
  load_credentials cp tp w = (Ok creds, w).
Proof.
  intros Hexp Hval Hf Hc Htok.
  pose proof (Hexp (net w) _ (creds_of_token_data_expiry _ _ Hc)) as He.
  pose proof (Hval (net w) _ Htok He) as Hv.
  rewrite (load_credentials_present _ _ _ _ _ Hf Hc).
  unfold bind, refresh_if_expired, refresh_with_client_info, bind,
    creds_expired, creds_valid, path_exists, ret.
  rewrite He. cbn. rewrite Hv. reflexivity.
Qed.

(** C9: [load_credentials] raises the missing-file error exactly when the
    token file does not exist; with the token file in place no step of it
    raises that error, whatever else goes wrong. *)
Theorem load_credentials_not_found_iff (w : world Net) (cp tp : string) :
  fst (load_credentials cp tp w) = Raise FileNotFoundError <->
  fs w !! expanduser tp = None.
Proof.
  split.
  - intros Hraise.
    destruct (fs w !! expanduser tp) as [[t m]|] eqn:Hf; [exfalso|done].
    revert Hraise. unfold load_credentials.
    unfold bind at 1. unfold path_exists at 1. rewrite Hf.
    rewrite bool_decide_eq_true_2 by eauto. cbn [negb].
    unfold bind at 1. unfold read_json at 1. rewrite Hf. cbn [content].
    destruct t as [g|token_data]; [cbn; congruence|].
    unfold bind at 1. unfold lift at 1.
    destruct (creds_of_token_data token_data) as [creds|e] eqn:Hc.
    + assert (Hs : steady w
        ((creds <- refresh_if_expired creds (expanduser tp) ;;
          refresh_with_client_info creds (expanduser cp) (expanduser tp)) w)).
      { apply steady_bind; [apply steady_refresh_if_expired|].
        intros c' w' _. apply steady_refresh_with_client_info. }
      exact (proj1 Hs).
    + cbn. intros [= ->]. by apply (creds_of_token_data_not_missing token_data).
  - intros Hf. unfold load_credentials, bind, path_exists. rewrite Hf.
    by rewrite bool_decide_eq_false_2 by (intros [? ?]; done).
Qed.

End WithLibraries.

(** *** The statements on concrete token files *)
Import Doubles.

(** [load_credentials()] with the default paths, against the stand-ins. *)
Local Abbreviation run :=
  (@load_credentials server auth os DEFAULT_CREDENTIALS_PATH DEFAULT_TOKEN_PATH).

Lemma token_file_T1 (n : server) (t : list effect) :
  @token_file_holds server os (mkWorld disk_T1 n t) DEFAULT_TOKEN_PATH token_T1.
Proof. exists 420%N. vm_compute. reflexivity. Defined.

(** A fresh [T1] is returned as stored and nothing happens. *)
Lemma load_credentials_valid_fresh_T1 :
  run world_fresh = (Ok creds_T1, world_fresh).
Proof.
  apply (load_credentials_valid_no_network (lib := auth) (platform := os)
           world_fresh DEFAULT_CREDENTIALS_PATH DEFAULT_TOKEN_PATH
           token_T1 creds_T1).
  - apply token_file_T1.
  - reflexivity.
  - reflexivity.
  - reflexivity.
Defined.

(** C1 fails on the code.  The token file of the scenario holds the access
    token [T1] and the refresh token [R1]; the server no longer honours [T1]
    and its endpoint would answer [T2].  The credential is built from the
    file without an expiry, so the library never takes it as expired:
    [load_credentials] returns the credential with [T1] as it is stored, calls
    [refresh] not once, and leaves the token file as it was. *)
Theorem load_credentials_expired_not_refreshed :
  @token_file_holds server os world_T1 DEFAULT_TOKEN_PATH token_T1 /\
  creds_of_token_data token_T1 = Ok creds_T1 /\
  is_stale (net world_T1) creds_T1 = true /\
  truthy (refresh_token creds_T1) = true /\
  answers (net world_T1) = [Some "T2"] /\
  expiry creds_T1 = None /\
  @expired _ auth (net world_T1) creds_T1 = false /\
  run world_T1 = (Ok creds_T1, world_T1) /\
  refresh_calls (trace (snd (run world_T1))) = 0 /\
  writes (trace (snd (run world_T1))) = 0 /\
  fs (snd (run world_T1)) !! token_file_path =
    Some (mkFile (Document token_T1) 420).
Proof.
  split; [apply token_file_T1|]. vm_compute. done.
Qed.

(** The same holds next to an app-registration file, and when the endpoint
    would refuse the exchange: the endpoint is never asked. *)
Example load_credentials_stale_as_stored :
  run world_twice = (Ok creds_T1, world_twice) /\
  run world_refused = (Ok creds_T1, world_refused).
Proof.
  split.
  - apply (load_credentials_without_expiry (lib := auth) (platform := os)
             world_twice DEFAULT_CREDENTIALS_PATH DEFAULT_TOKEN_PATH
             token_T1 creds_T1).
    + intros n c Hnone. cbn. by rewrite Hnone.
    + intros n c Htok He. cbn in *. rewrite He. by destruct (token c).
    + exists 420%N. vm_compute. reflexivity.
    + reflexivity.
    + discriminate.
  - apply (load_credentials_without_expiry (lib := auth) (platform := os)
             world_refused DEFAULT_CREDENTIALS_PATH DEFAULT_TOKEN_PATH
             token_T1 creds_T1).
    + intros n c Hnone. cbn. by rewrite Hnone.
    + intros n c Htok He. cbn in *. rewrite He. by destruct (token c).
    + apply token_file_T1.
    + reflexivity.
    + discriminate.
Qed.

(** C3 fails on the code.  A token file with a refresh token and no access
    token, and no app-registration file: the credential is not valid, no
    refresh is attempted, and [load_credentials] returns that credential
    instead of raising. *)
Lemma load_credentials_returns_unusable :
  run world_R1_only = (Ok creds_R1_only, world_R1_only) /\
  @valid _ auth (net world_R1_only) creds_R1_only = false /\
  truthy (token creds_R1_only) = false.
Proof. vm_compute. done. Qed.

End AuthSpec.

(** ** Records *)
Module ModelsSpec.
Import Models.

Section WithDatetime.
Context {pydt : PyDatetime}.

(** C7, as amended: an [EventDateTime] that is constructed has at least one
    of [date] and [date_time] set, from keyword arguments and from a wire
    dict alike; construction with both absent fails validation, and that is
    the only way the keyword constructor fails. *)
Theorem EventDateTime_at_least_one (d : option py_date) (t : option py_datetime)
    (z : option string) (data : pyval) :
  match EventDateTime_init d t z with
  | Ok e => e = mkEventDateTime d t z /\ (is_Some (date e) \/ is_Some (date_time e))
  | Raise e => e = ValidationError /\ d = None /\ t = None
  end /\
  EventDateTime_init None None z = Raise ValidationError /\
  match EventDateTime_validate data with
  | Ok e => is_Some (date e) \/ is_Some (date_time e)
  | Raise e => e = ValidationError
  end.
Proof.
  split; [|split].
  - destruct d, t; cbn; eauto.
  - reflexivity.
  - destruct data as [| | | | |kv]; cbn; try done.
    destruct (optional validate_date _) as [dd|e1] eqn:H1; cbn.
    2:{ revert H1. unfold optional. repeat case_match; cbn; try congruence.
        all: destruct (validate_date _); cbn; congruence. }
    destruct (optional validate_datetime _) as [tt'|e2] eqn:H2; cbn.
    2:{ revert H2. unfold optional. repeat case_match; cbn; try congruence.
        all: destruct (validate_datetime _); cbn; congruence. }
    destruct (optional validate_str _) as [zz|e3] eqn:H3; cbn.
    2:{ revert H3. unfold optional. repeat case_match; cbn; congruence. }
    destruct dd, tt'; cbn; eauto.
Qed.

(** C10, as amended: a valid [EventDateTime] goes to a dict with exactly
    the keys of the fields that are set ([date] and [dateTime] as their ISO
    text, [timeZone] as it is); validating that dict gives the record back
    exactly when pydantic reads the ISO texts of its [date] and [date_time]
    back as the values they were printed from. *)
Theorem to_api_dict_round_trip_iff (e : EventDateTime) :
  check_date_or_datetime e = Ok e ->
  to_api_dict e =
    match date e with
    | Some d => [("date", VStr (date_isoformat d))]
    | None => []
    end ++
    match date_time e with
    | Some t => [("dateTime", VStr (isoformat t))]
    | None => []
    end ++
    match time_zone e with
    | Some z => [("timeZone", VStr z)]
    | None => []
    end /\
  (EventDateTime_validate (VDict (to_api_dict e)) = Ok e <-> reads_back e).
Proof.
  intros Hok. split.
  { by destruct e as [[d|] [t|] [z|]]. }
  unfold reads_back.
  destruct e as [[d|] [t|] [z|]]; cbn in Hok; try discriminate;
    unfold EventDateTime_validate, to_api_dict, field, optional; cbn;
    (split; [intros Hv; split; intros x [= <-] | intros [Hd Ht]]).
  all: try (rewrite (Hd _ eq_refl); cbn).
  all: try (rewrite (Ht _ eq_refl); cbn).
  all: try reflexivity.
  all: revert Hv.
  all: try (destruct (validate_date _) as [d'|?]; cbn; [|discriminate]).
  all: try (destruct (validate_datetime _) as [t'|?]; cbn; [|discriminate]).
  all: congruence.
Qed.

End WithDatetime.

(** *** The statements on concrete records *)
Import Doubles.

(** C7 fails as stated: a record with both [date] and [date_time] set is
    constructed, from keyword arguments and from a wire dict. *)
Lemma EventDateTime_both_set :
  exists e : @EventDateTime datetimes,
    @EventDateTime_init datetimes (Some "2024-05-01")
      (Some "2024-05-01T09:00:00+00:00") None = Ok e /\
    @EventDateTime_validate datetimes
      (VDict [("date", VStr "2024-05-01");
              ("dateTime", VStr "2024-05-01T09:00:00+00:00")]) = Ok e /\
    is_Some (date e) /\ is_Some (date_time e).
Proof.
  eexists. split; [reflexivity|]. split; [reflexivity|]. split; eauto.
Qed.

(** A timed event with a zone goes to the wire and back. *)
Lemma to_api_dict_round_trip_timed :
  @to_api_dict strict_datetimes timed_event_strict =
    [("dateTime", VStr "2024-05-01T09:00:00+00:00");
     ("timeZone", VStr "America/Denver")] /\
  @EventDateTime_validate strict_datetimes
    (VDict (to_api_dict timed_event_strict)) = Ok timed_event_strict.
Proof.
  destruct (to_api_dict_round_trip_iff (pydt := strict_datetimes)
              timed_event_strict eq_refl) as [Hdict Hback].
  split; [exact Hdict|].
  apply Hback. split; intros x [= <-]; reflexivity.
Defined.

(** C10 fails as stated: [isoformat] prints a UTC offset with seconds, which
    pydantic refuses; the record is valid, and validating its wire dict
    raises. *)
Lemma to_api_dict_seconds_offset_refused :
  check_date_or_datetime seconds_offset_event = Ok seconds_offset_event /\
  @to_api_dict strict_datetimes seconds_offset_event =
    [("dateTime", VStr "2024-05-01T09:00:00+05:30:15")] /\
  @EventDateTime_validate strict_datetimes
    (VDict (to_api_dict seconds_offset_event)) = Raise ValidationError.
Proof. vm_compute. done. Qed.

End ModelsSpec.

(** ** Request bodies and time bounds *)
Module EventsSpec.
Import Models Service Events.

Section WithModels.
Context {pydt : PyDatetime} {Event : Type} {event_model : Model Event}.

(** C6: with a raw body, [_build_event_body] returns that body whatever the
    convenience fields are, and [create] and [patch] send it as it is: the
    request carries the override and the outcome is the one of the call with
    no convenience field at all. *)
Theorem body_override_wins
    (calendar_id event_id : string)
    (summary description location : option string)
    (start end_ : option time_arg)
    (attendees : option (list pyval))
    (recurrence : option (list string))
    (time_zone : option string)
    (body : dict) (s : service) :
  _build_event_body summary description location start end_ time_zone
    attendees recurrence (Some body) = Ok body /\
  calls (snd (create calendar_id summary description location start end_
                attendees recurrence time_zone (Some body) s)) =
    calls s ++ [mkRequest events_insert
                  [("calendarId", VStr calendar_id); ("body", VDict body)]] /\
  calls (snd (patch calendar_id event_id summary description location start end_
                attendees recurrence time_zone (Some body) s)) =
    calls s ++ [mkRequest events_patch
                  [("calendarId", VStr calendar_id); ("eventId", VStr event_id);
                   ("body", VDict body)]] /\
  create calendar_id summary description location start end_
    attendees recurrence time_zone (Some body) s =
  create calendar_id None None None None None None None None (Some body) s /\
  patch calendar_id event_id summary description location start end_
    attendees recurrence time_zone (Some body) s =
  patch calendar_id event_id None None None None None None None None (Some body) s.
Proof.
  split; [reflexivity|]. split; [|split; [|split; reflexivity]].
  - unfold create, bind, lift, execute. cbn.
    destruct (pending s) as [|[r|e] rs]; reflexivity.
  - unfold patch, bind, lift, execute. cbn.
    destruct (pending s) as [|[r|e] rs]; reflexivity.
Qed.







End WithModels.

(** *** The statements on concrete calls *)
Import Doubles.



End EventsSpec.

(** ** Pagination *)
Module PaginationSpec.
Import Models Service.

Lemma traverse_app {A B} (f : A -> result B) (l1 l2 : list A) (r : list B) :
  traverse f (l1 ++ l2) = Ok r ->
  exists r1 r2, traverse f l1 = Ok r1 /\ traverse f l2 = Ok r2 /\ r = r1 ++ r2.
Proof.
  revert r. induction l1 as [|x l1 IH]; intros r; cbn.
  - intros Hr. by exists [], r.
  - destruct (f x) as [y|e]; cbn; [|discriminate].
    destruct (traverse f (l1 ++ l2)) as [r'|e] eqn:Hr'; cbn; [|discriminate].
    intros [= <-]. destruct (IH r' eq_refl) as (r1 & r2 & -> & H2 & ->).
    exists (y :: r1), r2. by rewrite H2.
Qed.

Lemma has_cursor_truthy (p : page) : truthy (page_token p) = has_cursor p.
Proof. by destruct p as [? [c|]]. Qed.

Lemma dict_lookup_set_eq k v d : dict_lookup k (dict_set k v d) = Some v.
Proof.
  induction d as [|[k' v'] d IH]; cbn.
  - by rewrite String.eqb_refl.
  - destruct (String.eqb k k') eqn:Hk; cbn; [by rewrite String.eqb_refl|].
    by rewrite Hk.
Qed.

Lemma dict_lookup_set_ne k k' v d :
  String.eqb k k' = false -> dict_lookup k (dict_set k' v d) = dict_lookup k d.
Proof.
  intros Hne. induction d as [|[k'' v''] d IH]; cbn.
  - by rewrite Hne.
  - destruct (String.eqb k' k'') eqn:Hk; cbn.
    + apply String.eqb_eq in Hk as <-. by rewrite Hne.
    + by rewrite IH.
Qed.

(** The loop of a listing, whatever the resource: [turn] is one turn of it
    and [loop] the turns it takes; on a page that decodes a turn appends the
    decoded items, sends [req] of the token it was given and ends with the
    page's token. *)
Section Loop.
Context {R : Type}.
Variable decode : pyval -> result R.
Variable turn : pyval -> list R -> M service (list R * pyval).
Variable loop : nat -> pyval -> list R -> service ->
                option (result (list R) * service).
Variable req : pyval -> request.

Hypothesis loop_turn : forall fuel tok acc s,
  loop (S fuel) tok acc s =
    match turn tok acc s with
    | (Raise e, s') => Some (Raise e, s')
    | (Ok (acc', tok'), s') =>
        if negb (truthy tok') then Some (Ok acc', s') else loop fuel tok' acc' s'
    end.

Hypothesis turn_page : forall tok acc p rest cs new,
  traverse decode (page_items p) = Ok new ->
  turn tok acc (mkService (Ok (page_response p) :: rest) cs) =
    (Ok (acc ++ new, page_token p), mkService rest (cs ++ [req tok])).

Lemma loop_walks (ps : list page) (last : page) (rest : list (result pyval)) :
  Forall (fun p => has_cursor p = true) ps ->
  has_cursor last = false ->
  forall fuel tok acc cs recs,
    length ps < fuel ->
    traverse decode (concat (map page_items (ps ++ [last]))) = Ok recs ->
    loop fuel tok acc
      (mkService (map (fun p => Ok (page_response p)) (ps ++ [last]) ++ rest) cs) =
    Some (Ok (acc ++ recs),
          mkService rest (cs ++ map req (tok :: map page_token ps))).
Proof.
  intros Hps Hlast. induction Hps as [|p ps Hp Hps IH];
    intros fuel tok acc cs recs Hfuel Hrecs.
  - destruct fuel as [|fuel]; [cbn in Hfuel; lia|].
    cbn in Hrecs. rewrite app_nil_r in Hrecs.
    rewrite loop_turn. cbn [map app].
    rewrite (turn_page _ _ _ _ _ _ Hrecs).
    by rewrite has_cursor_truthy, Hlast.
  - destruct fuel as [|fuel]; [cbn in Hfuel; lia|].
    cbn [map app concat] in Hrecs.
    destruct (traverse_app _ _ _ _ Hrecs) as (new & recs' & Hnew & Hrecs' & ->).
    rewrite loop_turn. cbn [map app].
    rewrite (turn_page _ _ _ _ _ _ Hnew).
    rewrite has_cursor_truthy, Hp. cbn [negb].
    rewrite (IH fuel (page_token p) (acc ++ new) (cs ++ [req tok]) recs');
      [|cbn in Hfuel; lia|done].
    by rewrite <- !app_assoc.
Qed.

End Loop.

(** Reading a page: its items, or none when the field is left out, and its
    token. *)
Lemma page_get_items (p : page) :
  py_get (page_response p) "items" (VList []) = Ok (VList (page_items p)).
Proof. by destruct p as [[l|] [c|]]. Qed.

Lemma page_get_token (p : page) :
  py_get (page_response p) "nextPageToken" VNone = Ok (page_token p).
Proof. by destruct p as [[l|] [c|]]. Qed.

Section WithModels.
Context {pydt : PyDatetime} {Event : Type} {event_model : Model Event}
        {Calendar : Type} {calendar_model : Model Calendar}.

Lemma calendars_turn_page show_deleted show_hidden tok (acc : list Calendar)
    p rest cs new :
  traverse from_api_response (page_items p) = Ok new ->
  Calendars.list_all_turn show_deleted show_hidden tok acc
    (mkService (Ok (page_response p) :: rest) cs) =
    (Ok (acc ++ new, page_token p),
     mkService rest (cs ++ [Calendars.list_all_request show_deleted show_hidden tok])).
Proof.
  intros Hnew.
  unfold Calendars.list_all_turn, Calendars.decode_items, bind, lift, execute, ret.
  cbn [pending calls]. rewrite page_get_items. cbn [py_iter].
  rewrite Hnew, page_get_token. reflexivity.
Qed.

Lemma request_cursor_set m tok d :
  dict_lookup "pageToken" d = None ->
  request_cursor
    (mkRequest m match tok with VNone => d | x => dict_set "pageToken" x d end) =
    token_cursor tok.
Proof.
  intros Hd. unfold request_cursor. cbn [kwargs].
  destruct tok; try apply dict_lookup_set_eq. done.
Qed.

Lemma page_token_cursor (p : page) :
  has_cursor p = true -> token_cursor (page_token p) = Some (page_token p).
Proof. destruct p as [? [c|]]; cbn; [done|discriminate]. Qed.

(** The requests of a walk carry no cursor first and then the cursor of the
    page before. *)
Lemma walk_cursors (req : pyval -> request) (m : method) (ps : list page) :
  (forall tok, meth (req tok) = m) ->
  (forall tok, request_cursor (req tok) = token_cursor tok) ->
  Forall (fun p => has_cursor p = true) ps ->
  map meth (map req (VNone :: map page_token ps)) =
    map (fun _ => m) (None :: map Some ps) /\
  map request_cursor (map req (VNone :: map page_token ps)) =
    None :: map (fun p => Some (page_token p)) ps.
Proof.
  intros Hm Hc Hps. cbn [map]. rewrite Hm, Hc. split; f_equal.
  - induction Hps as [|p ps Hp _ IH]; cbn [map]; [done|]. by rewrite Hm, IH.
  - induction Hps as [|p ps Hp _ IH]; cbn [map]; [done|].
    by rewrite Hc, (page_token_cursor p Hp), IH.
Qed.

Lemma build_list_kwargs_aware calendar_id time_min time_max single_events
    order_by q show_deleted :
  Events.aware_bound time_min -> Events.aware_bound time_max ->
  exists d, dict_lookup "pageToken" d = None /\
    forall tok,
      Events._build_list_kwargs (pydt := pydt) calendar_id time_min time_max 250
        single_events order_by q tok show_deleted =
      Ok match tok with VNone => d | x => dict_set "pageToken" x d end.
Proof.
  intros Hmin Hmax. unfold Events._build_list_kwargs, Events._ensure_isoformat.
  destruct time_min as [t1|]; [destruct Hmin as [z1 ->]|];
    (destruct time_max as [t2|]; [destruct Hmax as [z2 ->]|]);
    destruct order_by, q; cbn -[dict_set];
    (eexists; split; [|intros tok; reflexivity]); reflexivity.
Qed.

(** C2: when the service answers with pages [ps] that each carry a cursor
    and then with a page [last] whose cursor is left out or empty, [list_all]
    of calendars and of events, given turns enough, sends one request per
    page, the first with no cursor and each next one with the cursor just
    returned, and returns the decoded items of all these pages in the order
    received, a page without [items] counting as empty; it stops at [last]:
    what the service would answer after it is never asked for. *)
Theorem list_all_walks_pages (ps : list page) (last : page)
    (rest : list (result pyval)) (s : service) (fuel : nat) :
  Forall (fun p => has_cursor p = true) ps ->
  has_cursor last = false ->
  pending s = map (fun p => Ok (page_response p)) (ps ++ [last]) ++ rest ->
  length ps < fuel ->
  (forall show_deleted show_hidden (recs : list Calendar),
     traverse from_api_response (concat (map page_items (ps ++ [last]))) = Ok recs ->
     walks_pages calendarList_list ps rest s recs
       (Calendars.list_all fuel show_deleted show_hidden s)) /\
  (forall calendar_id time_min time_max single_events order_by q show_deleted
          (recs : list Event),
     Events.aware_bound time_min -> Events.aware_bound time_max ->
     traverse from_api_response (concat (map page_items (ps ++ [last]))) = Ok recs ->
     walks_pages events_list ps rest s recs
       (Events.list_all fuel calendar_id time_min time_max single_events
          order_by q show_deleted s)).
Proof.
  intros Hps Hlast Hpending Hfuel. destruct s as [pend cs]. cbn in Hpending.
  subst pend. split.
  - intros show_deleted show_hidden recs Hrecs.
    exists (map (Calendars.list_all_request show_deleted show_hidden)
              (VNone :: map page_token ps)).
    split.
    + unfold Calendars.list_all.
      exact (loop_walks from_api_response
               (Calendars.list_all_turn show_deleted show_hidden)
               (fun fuel => Calendars.list_all_loop fuel show_deleted show_hidden)
               (Calendars.list_all_request show_deleted show_hidden)
               (fun _ _ _ _ => eq_refl)
               (calendars_turn_page show_deleted show_hidden)
               ps last rest Hps Hlast fuel VNone [] cs recs Hfuel Hrecs).
    + apply walk_cursors; try done.
      intros tok. unfold Calendars.list_all_request. by apply request_cursor_set.
  - intros calendar_id time_min time_max single_events order_by q show_deleted
      recs Hmin Hmax Hrecs.
    destruct (build_list_kwargs_aware calendar_id time_min time_max
                single_events order_by q show_deleted Hmin Hmax)
      as (d & Hd & Hkw).
    set (req := fun tok =>
      mkRequest events_list
        match tok with VNone => d | x => dict_set "pageToken" x d end).
    exists (map req (VNone :: map page_token ps)).
    split.
    + assert (Hturn : forall tok (acc : list Event) p rest' cs' new,
                traverse from_api_response (page_items p) = Ok new ->
                Events.list_all_turn calendar_id time_min time_max single_events
                  order_by q show_deleted tok acc
                  (mkService (Ok (page_response p) :: rest') cs') =
                (Ok (acc ++ new, page_token p),
                 mkService rest' (cs' ++ [req tok]))).
      { intros tok acc p rest' cs' new Hnew.
        unfold Events.list_all_turn, Events.decode_items, bind, lift, execute, ret.
        rewrite Hkw. cbn [pending calls]. rewrite page_get_items. cbn [py_iter].
        rewrite Hnew, page_get_token. reflexivity. }
      unfold Events.list_all.
      exact (loop_walks from_api_response
               (Events.list_all_turn calendar_id time_min time_max single_events
                  order_by q show_deleted)
               (fun fuel => Events.list_all_loop fuel calendar_id time_min
                  time_max single_events order_by q show_deleted)
               req (fun _ _ _ _ => eq_refl) Hturn
               ps last rest Hps Hlast fuel VNone [] cs recs Hfuel Hrecs).
    + apply walk_cursors; try done.
      intros tok. unfold req. by apply request_cursor_set.
Qed.

End WithModels.

(** *** The scenario of the specification *)
Import Doubles.

(** Three pages of 250, 250 and 10 items with cursors [p2], [p3] and the
    empty one: both listings return the 510 items and send three requests. *)
Lemma list_all_three_pages :
  walks_pages calendarList_list pages_250_250 [] three_pages (repeat raw_item 510)
    (@Calendars.list_all dict raw_model 3 false false three_pages) /\
  walks_pages events_list pages_250_250 [] three_pages (repeat raw_item 510)
    (@Events.list_all datetimes dict raw_model 3 "primary" None None true
       (Some "startTime") None false three_pages).
Proof.
  destruct (list_all_walks_pages (pydt := datetimes) (event_model := raw_model)
              (calendar_model := raw_model) pages_250_250 page_10 [] three_pages 3)
    as [Hcalendars Hevents].
  - repeat constructor.
  - reflexivity.
  - vm_compute. reflexivity.
  - repeat constructor.
  - split.
    + apply Hcalendars. vm_compute. reflexivity.
    + apply Hevents; [exact I | exact I |]. vm_compute. reflexivity.
Defined.

Example three_pages_510 :
  (fun out => match out with Some (Ok l, s) => (length l, length (calls s)) | _ => (0, 0) end)
    (@Events.list_all datetimes dict raw_model 3 "primary" None None true
       (Some "startTime") None false three_pages) = (510, 3).
Proof. vm_compute. reflexivity. Qed.

End PaginationSpec.

(** ** Free/busy *)
Module FreeBusySpec.
Import Models Service FreeBusy.

Section WithModels.
Context {pydt : PyDatetime}.
Hypothesis read_back : forall t, validate_datetime (VStr (isoformat t)) = Ok t.







End WithModels.

(** *** The scenario of the specification *)
Import Doubles.


Example scenario_cal1_cal2_entries :
  match @query datetimes ["cal1"; "cal2"] aware_nine aware_nine None None None
          scenario_freebusy with
  | (Ok r, _) =>
      (@busy datetimes <$> @calendars datetimes r !! "cal1") = Some [] /\
      (@errors datetimes <$> @calendars datetimes r !! "cal2") =
        Some (Some [[("domain", VStr "x")]])
  | _ => False
  end.
Proof. vm_compute. done. Qed.

End FreeBusySpec.

(** ** More on credential loading *)
Module AuthMore.
Import Auth AuthSpec.

Section WithLibraries.
Context {Net : Type} {lib : GoogleAuth Net} {platform : Os}.

Lemma refresh_calls_app (l1 l2 : list effect) :
  refresh_calls (l1 ++ l2) = refresh_calls l1 + refresh_calls l2.
Proof.
  induction l1 as [|[] l1 IH]; cbn; [done|by rewrite IH|done|done].
Qed.

Lemma writes_app (l1 l2 : list effect) :
  writes (l1 ++ l2) = writes l1 + writes l2.
Proof.
  induction l1 as [|[] l1 IH]; cbn; [done|done|by rewrite IH|done].
Qed.

Lemma footprint_refl (p : string) (k : nat) (w : world Net) : footprint p k w w.
Proof.
  exists []. rewrite app_nil_r. cbn. repeat split; try done; try lia.
Qed.

Lemma footprint_trans (p : string) (k1 k2 : nat) (w w1 w2 : world Net) :
  footprint p k1 w w1 -> footprint p k2 w1 w2 -> footprint p (k1 + k2) w w2.
Proof.
  intros (m1 & Ht1 & Hon1 & Hr1 & Hw1 & Hq1 & Hz1 & Hp1)
         (m2 & Ht2 & Hon2 & Hr2 & Hw2 & Hq2 & Hz2 & Hp2).
  exists (m1 ++ m2). rewrite refresh_calls_app, writes_app.
  split; [by rewrite Ht2, Ht1, app_assoc|].
  split; [by apply Forall_app|].
  split; [lia|]. split; [lia|].
  split; [intros q Hq; by rewrite Hq2, Hq1|].
  split.
  - intros Hz. rewrite Hz2, Hz1; [done|lia|lia].
  - intros Hpos. destruct (writes m2) as [|n] eqn:Hm2.
    + rewrite Hz2 by done. apply Hp1. lia.
    + apply Hp2. lia.
Qed.

(** The three ways the shared block ends. *)
Lemma refresh_and_save_cases (c : Credentials) (p : string) (w : world Net) :
  refresh_and_save c p w =
    match refresh (net w) c with
    | (None, n') =>
        (Raise RefreshError, mkWorld (fs w) n' (trace w ++ [RefreshCall c]))
    | (Some c', n') =>
        match token_data_of c' with
        | Ok doc =>
            (Ok c',
             mkWorld (<[p := mkFile (Document doc) owner_rw]> (fs w)) n'
               (trace w ++ [RefreshCall c; WriteText p (Document doc);
                            Chmod p owner_rw]))
        | Raise _ =>
            (Raise TypeError, mkWorld (fs w) n' (trace w ++ [RefreshCall c]))
        end
    end.
Proof.
  unfold refresh_and_save. unfold bind at 1. unfold creds_refresh at 1.
  destruct (refresh (net w) c) as [[c'|] n']; [|reflexivity].
  unfold bind at 1.
  destruct (token_data_of c') as [doc|e] eqn:Hd.
  - rewrite (save_token_run _ _ _ _ Hd). cbn [fs net trace].
    unfold ret. by rewrite <- app_assoc.
  - rewrite (save_token_raises _ _ _ _ Hd).
    by rewrite (token_data_of_raises _ _ Hd).
Qed.

Lemma refresh_and_save_footprint (c : Credentials) (p : string) (w : world Net) :
  footprint p 1 w (snd (refresh_and_save c p w)).
Proof.
  rewrite refresh_and_save_cases.
  destruct (refresh (net w) c) as [[c'|] n'].
  - destruct (token_data_of c') as [doc|e]; cbn [snd].
    + exists [RefreshCall c; WriteText p (Document doc); Chmod p owner_rw].
      cbn. split; [done|]. split; [repeat constructor|].
      split; [lia|]. split; [lia|].
      split; [intros q Hq; by rewrite lookup_insert_ne|].
      split; [lia|]. intros _. exists doc. by rewrite lookup_insert_eq.
    + exists [RefreshCall c]. cbn. split; [done|].
      split; [repeat constructor|]. repeat split; try done; lia.
  - cbn [snd]. exists [RefreshCall c]. cbn. split; [done|].
    split; [repeat constructor|]. repeat split; try done; lia.
Qed.

(** The first step refreshes and saves the credential it was given, or does
    nothing. *)
Lemma refresh_if_expired_cases (c : Credentials) (p : string) (w : world Net) :
  refresh_if_expired c p w = (Ok c, w) \/
  refresh_if_expired c p w = refresh_and_save c p w.
Proof.
  destruct (expired (net w) c && truthy (refresh_token c)) eqn:Hb;
    [right|left]; unfold refresh_if_expired; unfold bind at 1;
    unfold creds_expired at 1; rewrite Hb; reflexivity.
Qed.

(** The second step does nothing to the world, or refreshes and saves a
    credential that carries the token and refresh token it was given and the
    default scope. *)
Lemma refresh_with_client_info_cases (c : Credentials) (cp tp : string)
    (w : world Net) :
  (exists r, refresh_with_client_info c cp tp w = (r, w)) \/
  (exists c2, token c2 = token c /\ refresh_token c2 = refresh_token c /\
     scopes c2 = SCOPES /\
     refresh_with_client_info c cp tp w = refresh_and_save c2 tp w).
Proof.
  destruct (refresh_with_client_info c cp tp w) as [r0 w0] eqn:Hrun.
  revert Hrun. unfold refresh_with_client_info.
  unfold bind at 1. unfold creds_valid at 1.
  unfold bind at 1. unfold path_exists at 1.
  destruct (negb _ && _ && _); [|intros [= <- <-]; left; by eexists].
  unfold bind at 1. unfold read_json at 1.
  destruct (fs w !! cp) as [[[g|cred_data] m]|]; cbn [content];
    [intros [= <- <-]; left; by eexists| |intros [= <- <-]; left; by eexists].
  unfold bind at 1. unfold lift at 1.
  destruct (py_get cred_data "installed" VNone) as [installed|e];
    [|intros [= <- <-]; left; by eexists].
  unfold bind at 1.
  assert (Hinfo : exists r, (if truthy installed then ret installed
            else lift (py_get cred_data "web" (VDict []))) w = (r, w)).
  { destruct (truthy installed); by eexists. }
  destruct Hinfo as [[client_info|e] ->]; [|intros [= <- <-]; left; by eexists].
  destruct (truthy client_info); [|intros [= <- <-]; left; by eexists].
  unfold bind at 1. unfold lift at 1.
  destruct (creds_of_client_info c client_info) as [c2|e] eqn:Hc2;
    [|intros [= <- <-]; left; by eexists].
  intros Hrun. right. exists c2.
  split; [|split; [|split]]; [..|by rewrite <- Hrun];
    destruct client_info; cbn in Hc2; try discriminate; by injection Hc2 as <-.
Qed.

(** The footprint of [load_credentials], whatever the files hold and whatever
    the library answers. *)
Lemma load_credentials_footprint (w : world Net) (cp tp : string) :
  footprint (expanduser tp) 2 w (snd (load_credentials cp tp w)).
Proof.
  unfold load_credentials.
  unfold bind at 1. unfold path_exists at 1.
  destruct (negb _); [apply footprint_refl|].
  unfold bind at 1. unfold read_json at 1.
  destruct (fs w !! expanduser tp) as [[[g|token_data] m]|]; cbn [content];
    try apply footprint_refl.
  unfold bind at 1. unfold lift at 1.
  destruct (creds_of_token_data token_data) as [c|e]; [|apply footprint_refl].
  unfold bind at 1.
  assert (H1 : footprint (expanduser tp) 1 w
                 (snd (refresh_if_expired c (expanduser tp) w))).
  { destruct (refresh_if_expired_cases c (expanduser tp) w) as [-> | ->];
      [apply footprint_refl | apply refresh_and_save_footprint]. }
  destruct (refresh_if_expired c (expanduser tp) w) as [[c1|e] w1];
    cbn [snd] in H1.
  - apply (footprint_trans _ 1 1 w w1); [done|].
    destruct (refresh_with_client_info_cases c1 (expanduser cp) (expanduser tp) w1)
      as [[r ->] | (c2 & _ & _ & _ & ->)];
      [apply footprint_refl | apply refresh_and_save_footprint].
  - destruct H1 as (more & H1). exists more.
    destruct H1 as (? & ? & ? & ? & ? & ? & ?). repeat split; try done. lia.
Qed.

(** X3: whatever the files hold and the library answers, [load_credentials]
    writes no file but the token file and sets no mode but [0o600]; every
    other file, the app-registration file included, is as it was; a run
    that wrote nothing leaves the disk as it was, and a run that wrote
    leaves a JSON document under mode [0o600] in the token file. *)
Theorem load_credentials_writes_token_file_only (w : world Net) (cp tp : string) :
  exists more,
    trace (snd (load_credentials cp tp w)) = trace w ++ more /\
    Forall (on_path (expanduser tp)) more /\
    (forall q, q <> expanduser tp ->
       fs (snd (load_credentials cp tp w)) !! q = fs w !! q) /\
    (writes more = 0 -> fs (snd (load_credentials cp tp w)) = fs w) /\
    (0 < writes more ->
     exists doc, fs (snd (load_credentials cp tp w)) !! expanduser tp =
                   Some (mkFile (Document doc) owner_rw)).
Proof.
  destruct (load_credentials_footprint w cp tp)
    as (more & Ht & Hon & _ & _ & Hq & Hz & Hp).
  exists more. repeat split; done.
Qed.

(** X4: a run of [load_credentials] calls [refresh] at most twice, and it
    never writes the token file without having refreshed: the writes are no
    more than the refresh calls. *)
Theorem load_credentials_at_most_two_refreshes (w : world Net) (cp tp : string) :
  exists more,
    trace (snd (load_credentials cp tp w)) = trace w ++ more /\
    refresh_calls more <= 2 /\
    writes more <= refresh_calls more.
Proof.
  destruct (load_credentials_footprint w cp tp)
    as (more & Ht & _ & Hr & Hw & _).
  exists more. repeat split; done.
Qed.



(** What [load_credentials] reads back from what [_save_token] wrote. *)
Lemma creds_of_saved_token_data (creds : Credentials) (l : list pyval) :
  scopes creds = VList l ->
  exists doc,
    token_data_of creds = Ok doc /\
    creds_of_token_data doc =
      Ok (mkCredentials (token creds) (refresh_token creds) (token_uri creds)
            (client_id creds) (client_secret creds)
            match l with [] => SCOPES | _ => VList l end None).
Proof.
  intros Hs. unfold token_data_of. rewrite Hs.
  destruct l as [|x l]; cbn; eexists; (split; [reflexivity|]); reflexivity.
Qed.

(** X2: saving a credential whose scopes are a list and loading it again
    gives the credential back in its token, refresh token, token URI, client
    id and client secret, with the default scope in place of no scope, and
    without its expiry, which the token file does not keep; this when the
    credential so read is valid and not expired. *)
Theorem save_then_load_round_trip (creds : Credentials) (cp tp : string)
    (l : list pyval) (w : world Net) :
  scopes creds = VList l ->
  let stored :=
    mkCredentials (token creds) (refresh_token creds) (token_uri creds)
      (client_id creds) (client_secret creds)
      match l with [] => SCOPES | _ => VList l end None in
  valid (net w) stored = true ->
  expired (net w) stored = false ->
  fst (save_then_load creds cp tp w) = Ok stored.
Proof.
  intros Hs stored Hv He.
  destruct (creds_of_saved_token_data creds l Hs) as (doc & Hd & Hback).
  unfold save_then_load. unfold bind at 1.
  rewrite (save_token_run _ _ _ _ Hd).
  set (w1 := mkWorld _ _ _).
  assert (Hf : token_file_holds w1 tp doc).
  { exists owner_rw. unfold w1. cbn [fs]. by rewrite lookup_insert_eq. }
  rewrite (load_credentials_present _ _ _ _ _ Hf Hback).
  unfold bind, refresh_if_expired, refresh_with_client_info, bind,
    creds_expired, creds_valid, path_exists, ret.
  unfold w1. cbn [net]. fold stored. rewrite He. cbn. rewrite Hv. reflexivity.
Qed.

(** X5: a token file that is not JSON makes [load_credentials] raise the
    JSON decoding error, and one whose JSON document is not an object makes
    it raise an attribute error; either way nothing was refreshed or
    written. *)
Theorem load_credentials_malformed (w : world Net) (cp tp : string) (f : file) :
  fs w !! expanduser tp = Some f ->
  match content f with
  | Garbage _ => load_credentials cp tp w = (Raise JSONDecodeError, w)
  | Document (VDict _) => True
  | Document _ => load_credentials cp tp w = (Raise AttributeError, w)
  end.
Proof.
  intros Hf. destruct f as [[g|j] m]; cbn [content].
  - unfold load_credentials, bind, path_exists, read_json. rewrite Hf.
    rewrite bool_decide_eq_true_2 by eauto. cbn [negb]. cbv beta.
    by rewrite Hf.
  - destruct j; try exact I;
      unfold load_credentials, bind, path_exists, read_json, lift; rewrite Hf;
      rewrite bool_decide_eq_true_2 by eauto; cbn [negb]; cbv beta;
      by rewrite Hf.
Qed.

(** X7: when the credential is not valid but has a refresh token and the
    app-registration file holds a JSON object, the second step takes the
    "installed" entry if it is truthy and the "web" entry otherwise.  With a
    non-empty object for it, the step refreshes and saves a credential made
    of the token and refresh token it was given, the entry's [client_id],
    [client_secret] and [token_uri] (the default URI when left out) and the
    default scope; with no entry, or an empty or falsy one, it returns the
    credential as it is, not valid; with a truthy entry that is not an object
    it raises an attribute error. *)
Theorem refresh_with_client_info_installed_first (creds : Credentials)
    (cp tp : string) (d : dict) (m : N) (w : world Net) :
  valid (net w) creds = false ->
  truthy (refresh_token creds) = true ->
  fs w !! cp = Some (mkFile (Document (VDict d)) m) ->
  let client_info :=
    if truthy (dict_get d "installed" VNone)
    then dict_get d "installed" VNone
    else dict_get d "web" (VDict []) in
  refresh_with_client_info creds cp tp w =
    match client_info with
    | VDict [] => (Ok creds, w)
    | VDict i =>
        refresh_and_save
          (mkCredentials (token creds) (refresh_token creds)
             (dict_get i "token_uri" DEFAULT_TOKEN_URI)
             (dict_get i "client_id" VNone)
             (dict_get i "client_secret" VNone) SCOPES None) tp w
    | other => if truthy other then (Raise AttributeError, w) else (Ok creds, w)
    end.
Proof.
  intros Hv Hr Hf client_info.
  unfold refresh_with_client_info.
  unfold bind at 1. unfold creds_valid at 1. rewrite Hv.
  unfold bind at 1. unfold path_exists at 1. rewrite Hf, Hr.
  rewrite bool_decide_eq_true_2 by eauto. cbn [negb andb].
  unfold bind at 1. unfold read_json at 1. rewrite Hf. cbn [content].
  unfold bind at 1. unfold lift at 1. cbn [py_get].
  unfold bind at 1.
  assert (Hinfo : (if truthy (dict_get d "installed" VNone)
                   then ret (dict_get d "installed" VNone)
                   else lift (Ok (dict_get d "web" (VDict [])))) w =
                  (Ok client_info, w)).
  { unfold client_info. by destruct (truthy (dict_get d "installed" VNone)). }
  rewrite Hinfo. clear Hinfo. clearbody client_info.
  destruct client_info as [|b|z|s|l|i]; cbn [truthy]; try reflexivity.
  - by destruct b.
  - by destruct (Z.eqb z 0).
  - by destruct (String.eqb s "").
  - by destruct l.
  - by destruct i.
Qed.

(** X6: when the token file holds no refresh token (left out, null or
    empty), [load_credentials] returns the credential built from the file
    as it is and does nothing else, whether the library takes that
    credential as expired, as valid or as neither. *)
Theorem load_credentials_without_refresh_token (w : world Net) (cp tp : string)
    (token_data : pyval) (creds : Credentials) :
  token_file_holds w tp token_data ->
  creds_of_token_data token_data = Ok creds ->
  truthy (refresh_token creds) = false ->
  load_credentials cp tp w = (Ok creds, w).
Proof. apply load_credentials_no_refresh_token. Qed.

End WithLibraries.

(** *** The statements on concrete files *)
Import Doubles.

Lemma save_then_load_T2 :
  fst (@save_then_load server auth os creds_T2 DEFAULT_CREDENTIALS_PATH
         DEFAULT_TOKEN_PATH world_empty) = Ok creds_T2.
Proof.
  apply (save_then_load_round_trip (lib := auth) (platform := os) creds_T2
           DEFAULT_CREDENTIALS_PATH DEFAULT_TOKEN_PATH
           [VStr "https://www.googleapis.com/auth/calendar"] world_empty).
  - reflexivity.
  - reflexivity.
  - reflexivity.
Defined.

Lemma load_credentials_garbage :
  @load_credentials server auth os DEFAULT_CREDENTIALS_PATH DEFAULT_TOKEN_PATH
    world_garbage = (Raise JSONDecodeError, world_garbage).
Proof.
  apply (load_credentials_malformed (lib := auth) (platform := os) world_garbage
           DEFAULT_CREDENTIALS_PATH DEFAULT_TOKEN_PATH
           (mkFile (Garbage "not json") 420)).
  vm_compute. reflexivity.
Defined.

Example load_credentials_json_list :
  @load_credentials server auth os DEFAULT_CREDENTIALS_PATH DEFAULT_TOKEN_PATH
    world_json_list = (Raise AttributeError, world_json_list).
Proof. vm_compute. reflexivity. Qed.

(** A run-out [T1] with no refresh token is returned as it is. *)
Lemma load_credentials_T1_only :
  @load_credentials server auth os DEFAULT_CREDENTIALS_PATH DEFAULT_TOKEN_PATH
    world_T1_only = (Ok creds_T1_only, world_T1_only).
Proof.
  apply (load_credentials_without_refresh_token (lib := auth) (platform := os)
           world_T1_only DEFAULT_CREDENTIALS_PATH DEFAULT_TOKEN_PATH
           token_T1_only creds_T1_only).
  - exists 420%N. vm_compute. reflexivity.
  - reflexivity.
  - reflexivity.
Defined.

(** With both entries in the app-registration file the "installed" one is
    used. *)
Lemma refresh_with_client_info_both :
  @refresh_with_client_info server auth os creds_R1_only credentials_file_path
    token_file_path world_app_both =
  @refresh_and_save server auth os
    (mkCredentials VNone (VStr "R1") DEFAULT_TOKEN_URI (VStr "Ci") (VStr "Si")
       SCOPES None) token_file_path world_app_both.
Proof.
  apply (refresh_with_client_info_installed_first (lib := auth) (platform := os)
           creds_R1_only
           credentials_file_path token_file_path app_both 420 world_app_both).
  - reflexivity.
  - reflexivity.
  - vm_compute. reflexivity.
Defined.

End AuthMore.

(** ** More on events *)
Module EventsMore.
Import Models Service Events.

Section WithModels.
Context {pydt : PyDatetime} {Event : Type} {event_model : Model Event}.

Lemma execute_round_trip (m : method) (kw : dict) (s : service) :
  calls (snd (execute m kw s)) = calls s ++ [mkRequest m kw] /\
  pending (snd (execute m kw s)) = tail (pending s).
Proof. unfold execute. by destruct (pending s) as [|r rs]. Qed.

(** A call that is [execute] and then work on its answer that leaves the
    service alone makes one round trip. *)
Lemma execute_then_round_trip {A B} (m : method) (kw : dict)
    (k : pyval -> result B) (f : result B -> result A) (s : service) :
  one_round_trip m s
    (snd (match execute m kw s with
          | (Ok a, s') => (f (k a), s')
          | (Raise e, s') => (f (Raise e), s')
          end)).
Proof.
  exists kw. destruct (execute_round_trip m kw s) as [Hc Hp].
  destruct (execute m kw s) as [[a|e] s']; cbn [snd] in *; done.
Qed.

Lemma to_event_datetime_aware (x : time_arg) (time_zone : option string) :
  aware_arg (Some x) ->
  _to_event_datetime x time_zone = Ok (event_datetime_dict x time_zone).
Proof.
  destruct x as [t|e]; cbn; [|done]. intros [z ->]. by destruct time_zone.
Qed.

Lemma build_event_body_aware
    (summary description location : option string)
    (start end_ : option time_arg)
    (time_zone : option string)
    (attendees : option (list pyval))
    (recurrence : option (list string)) :
  aware_arg start ->
  aware_arg end_ ->
  _build_event_body summary description location start end_ time_zone
    attendees recurrence None =
    Ok (convenience_body summary description location start end_ time_zone
          attendees recurrence).
Proof.
  intros Hs He. unfold _build_event_body, convenience_body.
  destruct start as [x|]; [rewrite (to_event_datetime_aware x time_zone Hs)|];
    (destruct end_ as [y|]; [rewrite (to_event_datetime_aware y time_zone He)|]);
    destruct summary, description, location, attendees, recurrence;
    reflexivity.
Qed.

Lemma build_list_kwargs_aware_bounds
    (calendar_id : string)
    (time_min time_max : option py_datetime)
    (max_results : Z)
    (single_events : bool)
    (order_by q : option string)
    (page_token : pyval)
    (show_deleted : bool) :
  aware_bound time_min ->
  aware_bound time_max ->
  _build_list_kwargs calendar_id time_min time_max max_results single_events
    order_by q page_token show_deleted =
    Ok (list_kwargs calendar_id time_min time_max max_results single_events
          order_by q page_token show_deleted).
Proof.
  intros Hmin Hmax. unfold _build_list_kwargs, _ensure_isoformat, list_kwargs.
  destruct time_min as [t1|]; [destruct Hmin as [z1 ->]|];
    (destruct time_max as [t2|]; [destruct Hmax as [z2 ->]|]);
    destruct order_by, q, page_token; reflexivity.
Qed.

(** X8: with no raw body and times that are an [EventDateTime] or carry
    a timezone, [_build_event_body] gives the dict of exactly the
    convenience fields that were passed, in the order summary, description,
    location, start, end, attendees, recurrence; a field left out is no key
    of the body; an attendee given as an address becomes [email: address]
    and one given as a dict stays; [time_zone] only shows inside the
    [start] or [end] of a plain datetime; and this dict is the body
    [create] and [patch] send. *)
Theorem build_event_body_convenience
    (calendar_id event_id : string)
    (summary description location : option string)
    (start end_ : option time_arg)
    (time_zone : option string)
    (attendees : option (list pyval))
    (recurrence : option (list string)) (s : service) :
  aware_arg start ->
  aware_arg end_ ->
  _build_event_body summary description location start end_ time_zone
    attendees recurrence None =
    Ok (convenience_body summary description location start end_ time_zone
          attendees recurrence) /\
  calls (snd (create calendar_id summary description location start end_
                attendees recurrence time_zone None s)) =
    calls s ++
    [mkRequest events_insert
       [("calendarId", VStr calendar_id);
        ("body", VDict (convenience_body summary description location start
                          end_ time_zone attendees recurrence))]] /\
  calls (snd (patch calendar_id event_id summary description location start
                end_ attendees recurrence time_zone None s)) =
    calls s ++
    [mkRequest events_patch
       [("calendarId", VStr calendar_id); ("eventId", VStr event_id);
        ("body", VDict (convenience_body summary description location start
                          end_ time_zone attendees recurrence))]].
Proof.
  intros Hs He. split; [by apply build_event_body_aware|]. split.
  - unfold create, bind, lift.
    rewrite (build_event_body_aware _ _ _ _ _ _ _ _ Hs He). unfold execute.
    destruct (pending s) as [|[r|e] rs]; reflexivity.
  - unfold patch, bind, lift.
    rewrite (build_event_body_aware _ _ _ _ _ _ _ _ Hs He). unfold execute.
    destruct (pending s) as [|[r|e] rs]; reflexivity.
Qed.

(** X9: with timezone-aware bounds [_build_list_kwargs] never raises,
    whatever [single_events] and [order_by] are, and gives the four fixed
    arguments followed by exactly those of [timeMin], [timeMax], [orderBy],
    [q] and [pageToken] that were passed. *)
Theorem build_list_kwargs_keys
    (calendar_id : string)
    (time_min time_max : option py_datetime)
    (max_results : Z)
    (single_events : bool)
    (order_by q : option string)
    (page_token : pyval)
    (show_deleted : bool) :
  aware_bound time_min ->
  aware_bound time_max ->
  _build_list_kwargs calendar_id time_min time_max max_results single_events
    order_by q page_token show_deleted =
    Ok (list_kwargs calendar_id time_min time_max max_results single_events
          order_by q page_token show_deleted).
Proof. apply build_list_kwargs_aware_bounds. Qed.

(** Decoding the items of an answer leaves the service alone. *)
Lemma decode_items_state (result : pyval) (s : service) :
  snd (decode_items (Event := Event) result s) = s.
Proof.
  unfold decode_items, bind, lift.
  destruct (py_get result "items" (VList [])) as [items|e]; [|done].
  destruct (py_iter items) as [l|e]; done.
Qed.

Ltac round_trip :=
  unfold bind, lift, ret; cbn -[execute decode_items];
  match goal with
  | |- context [execute ?m ?kw ?s] =>
      exists kw; destruct (execute_round_trip m kw s) as [Hc Hp];
      destruct (execute m kw s) as [[a|e] s']; cbn [snd] in *;
      rewrite ?decode_items_state; done
  end.


End WithModels.

(** *** On concrete calls *)
Import Doubles.

(** A meeting with a bare address and a full attendee record. *)
Lemma build_event_body_meeting :
  @_build_event_body datetimes (Some "Sync") None None
    (Some (Plain aware_nine)) (Some (Structured timed_event))
    (Some "Europe/Paris")
    (Some [VStr "a@example.com"; VDict [("email", VStr "b@example.com")]])
    None None =
  Ok [("summary", VStr "Sync");
      ("start", VDict [("dateTime", VStr aware_nine);
                       ("timeZone", VStr "Europe/Paris")]);
      ("end", VDict [("dateTime", VStr "2024-05-01T09:00:00+00:00");
                     ("timeZone", VStr "America/Denver")]);
      ("attendees", VList [VDict [("email", VStr "a@example.com")];
                           VDict [("email", VStr "b@example.com")]])].
Proof.
  apply (build_event_body_convenience (pydt := datetimes) (Event := dict)
           (event_model := raw_model) "primary" "e1" (Some "Sync") None None
           (Some (Plain aware_nine)) (Some (Structured timed_event))
           (Some "Europe/Paris")
           (Some [VStr "a@example.com"; VDict [("email", VStr "b@example.com")]])
           None one_event).
  - by exists tt.
  - exact I.
Defined.

Lemma build_list_kwargs_search :
  @_build_list_kwargs datetimes "primary" (Some aware_nine) None 10 false
    (Some "startTime") (Some "standup") (VStr "p2") true =
  Ok [("calendarId", VStr "primary"); ("maxResults", VInt 10);
      ("singleEvents", VBool false); ("showDeleted", VBool true);
      ("timeMin", VStr aware_nine); ("orderBy", VStr "startTime");
      ("q", VStr "standup"); ("pageToken", VStr "p2")].
Proof.
  apply (build_list_kwargs_keys (pydt := datetimes) "primary" (Some aware_nine)
           None 10 false (Some "startTime") (Some "standup") (VStr "p2") true).
  - by exists tt.
  - exact I.
Defined.

End EventsMore.

(** ** More on listing *)
Module PaginationMore.
Import Models Service PaginationSpec.

(** The loop of a listing again, whatever the resource, with a listing
    that has no turn left and a turn that meets an error of the transport or
    a service with nothing to say. *)
Section Loop.
Context {R : Type}.
Variable decode : pyval -> result R.
Variable turn : pyval -> list R -> M service (list R * pyval).
Variable loop : nat -> pyval -> list R -> service ->
                option (result (list R) * service).
Variable req : pyval -> request.

Hypothesis loop_none : forall tok acc s, loop 0 tok acc s = None.

Hypothesis loop_turn : forall fuel tok acc s,
  loop (S fuel) tok acc s =
    match turn tok acc s with
    | (Raise e, s') => Some (Raise e, s')
    | (Ok (acc', tok'), s') =>
        if negb (truthy tok') then Some (Ok acc', s') else loop fuel tok' acc' s'
    end.

Hypothesis turn_page : forall tok acc p rest cs new,
  traverse decode (page_items p) = Ok new ->
  turn tok acc (mkService (Ok (page_response p) :: rest) cs) =
    (Ok (acc ++ new, page_token p), mkService rest (cs ++ [req tok])).

Hypothesis turn_error : forall tok acc e rest cs,
  turn tok acc (mkService (Raise e :: rest) cs) =
    (Raise e, mkService rest (cs ++ [req tok])).

Hypothesis turn_silent : forall tok acc cs,
  turn tok acc (mkService [] cs) =
    (Raise HttpError, mkService [] (cs ++ [req tok])).

Lemma loop_keeps_asking (ps : list page) (rest : list (result pyval)) :
  Forall (fun p => has_cursor p = true) ps ->
  forall fuel tok acc cs recs,
    fuel <= length ps ->
    traverse decode (concat (map page_items ps)) = Ok recs ->
    loop fuel tok acc
      (mkService (map (fun p => Ok (page_response p)) ps ++ rest) cs) = None.
Proof.
  intros Hps. induction Hps as [|p ps Hp Hps IH];
    intros fuel tok acc cs recs Hfuel Hrecs.
  - cbn in Hfuel. assert (fuel = 0) as -> by lia. apply loop_none.
  - destruct fuel as [|fuel]; [apply loop_none|].
    cbn [map concat] in Hrecs.
    destruct (traverse_app _ _ _ _ Hrecs) as (new & recs' & Hnew & Hrecs' & ->).
    rewrite loop_turn. cbn [map app].
    rewrite (turn_page _ _ _ _ _ _ Hnew).
    rewrite has_cursor_truthy, Hp. cbn [negb].
    apply (IH fuel _ _ _ recs'); [cbn in Hfuel; lia|done].
Qed.

Lemma loop_stops_on_error (ps : list page) (tl : list (result pyval)) (e : exn)
    (rest : list (result pyval)) :
  Forall (fun p => has_cursor p = true) ps ->
  (tl = Raise e :: rest \/ (tl = [] /\ e = HttpError /\ rest = [])) ->
  forall fuel tok acc cs recs,
    length ps < fuel ->
    traverse decode (concat (map page_items ps)) = Ok recs ->
    loop fuel tok acc
      (mkService (map (fun p => Ok (page_response p)) ps ++ tl) cs) =
    Some (Raise e, mkService rest (cs ++ map req (tok :: map page_token ps))).
Proof.
  intros Hps Htl. induction Hps as [|p ps Hp Hps IH];
    intros fuel tok acc cs recs Hfuel Hrecs.
  - destruct fuel as [|fuel]; [cbn in Hfuel; lia|].
    rewrite loop_turn. cbn [map app].
    destruct Htl as [-> | (-> & -> & ->)];
      [by rewrite turn_error | by rewrite turn_silent].
  - destruct fuel as [|fuel]; [cbn in Hfuel; lia|].
    cbn [map concat] in Hrecs.
    destruct (traverse_app _ _ _ _ Hrecs) as (new & recs' & Hnew & Hrecs' & ->).
    rewrite loop_turn. cbn [map app].
    rewrite (turn_page _ _ _ _ _ _ Hnew).
    rewrite has_cursor_truthy, Hp. cbn [negb].
    rewrite (IH fuel (page_token p) (acc ++ new) (cs ++ [req tok]) recs');
      [|cbn in Hfuel; lia|done].
    by rewrite <- !app_assoc.
Qed.

End Loop.

Section WithModels.
Context {pydt : PyDatetime} {Event : Type} {event_model : Model Event}
        {Calendar : Type} {calendar_model : Model Calendar}.

(** The request a turn of [EventsResource.list_all] sends for a page
    token. *)
Local Abbreviation events_request calendar_id time_min time_max single_events
    order_by q show_deleted :=
  (fun tok => mkRequest events_list
     (Events.list_kwargs calendar_id time_min time_max 250 single_events
        order_by q tok show_deleted)).

Lemma events_turn_page calendar_id time_min time_max single_events order_by q
    show_deleted tok (acc : list Event) p rest cs new :
  Events.aware_bound time_min -> Events.aware_bound time_max ->
  traverse from_api_response (page_items p) = Ok new ->
  Events.list_all_turn calendar_id time_min time_max single_events order_by q
    show_deleted tok acc (mkService (Ok (page_response p) :: rest) cs) =
    (Ok (acc ++ new, page_token p),
     mkService rest (cs ++ [events_request calendar_id time_min time_max
                              single_events order_by q show_deleted tok])).
Proof.
  intros Hmin Hmax Hnew.
  unfold Events.list_all_turn, Events.decode_items, bind, lift, execute, ret.
  rewrite (EventsMore.build_list_kwargs_aware_bounds _ _ _ _ _ _ _ _ _ Hmin Hmax).
  cbn [pending calls]. rewrite page_get_items. cbn [py_iter].
  rewrite Hnew, page_get_token. reflexivity.
Qed.

Lemma events_turn_error calendar_id time_min time_max single_events order_by q
    show_deleted tok (acc : list Event) e rest cs :
  Events.aware_bound time_min -> Events.aware_bound time_max ->
  Events.list_all_turn calendar_id time_min time_max single_events order_by q
    show_deleted tok acc (mkService (Raise e :: rest) cs) =
    (Raise e,
     mkService rest (cs ++ [events_request calendar_id time_min time_max
                              single_events order_by q show_deleted tok])).
Proof.
  intros Hmin Hmax. unfold Events.list_all_turn, bind, lift, execute.
  by rewrite (EventsMore.build_list_kwargs_aware_bounds _ _ _ _ _ _ _ _ _ Hmin Hmax).
Qed.

Lemma events_turn_silent calendar_id time_min time_max single_events order_by q
    show_deleted tok (acc : list Event) cs :
  Events.aware_bound time_min -> Events.aware_bound time_max ->
  Events.list_all_turn calendar_id time_min time_max single_events order_by q
    show_deleted tok acc (mkService [] cs) =
    (Raise HttpError,
     mkService [] (cs ++ [events_request calendar_id time_min time_max
                            single_events order_by q show_deleted tok])).
Proof.
  intros Hmin Hmax. unfold Events.list_all_turn, bind, lift, execute.
  by rewrite (EventsMore.build_list_kwargs_aware_bounds _ _ _ _ _ _ _ _ _ Hmin Hmax).
Qed.

(** X11: while the pages carry cursors [list_all] keeps asking: of
    calendars or of events, it does not come to an end within as many turns
    as the service has cursor-bearing pages to give, however many these are:
    there is no cap on the pages it walks. *)
Theorem list_all_keeps_asking (ps : list page) (rest : list (result pyval))
    (s : service) (fuel : nat) :
  Forall (fun p => has_cursor p = true) ps ->
  pending s = map (fun p => Ok (page_response p)) ps ++ rest ->
  fuel <= length ps ->
  (forall show_deleted show_hidden (recs : list Calendar),
     traverse from_api_response (concat (map page_items ps)) = Ok recs ->
     Calendars.list_all (Calendar := Calendar) fuel show_deleted show_hidden s =
       None) /\
  (forall calendar_id time_min time_max single_events order_by q show_deleted
          (recs : list Event),
     Events.aware_bound time_min -> Events.aware_bound time_max ->
     traverse from_api_response (concat (map page_items ps)) = Ok recs ->
     Events.list_all (Event := Event) fuel calendar_id time_min time_max
       single_events order_by q show_deleted s = None).
Proof.
  intros Hps Hpending Hfuel. destruct s as [pend cs]. cbn in Hpending.
  subst pend. split.
  - intros show_deleted show_hidden recs Hrecs. unfold Calendars.list_all.
    exact (loop_keeps_asking from_api_response
             (Calendars.list_all_turn show_deleted show_hidden)
             (fun fuel => Calendars.list_all_loop fuel show_deleted show_hidden)
             (Calendars.list_all_request show_deleted show_hidden)
             (fun _ _ _ => eq_refl) (fun _ _ _ _ => eq_refl)
             (calendars_turn_page show_deleted show_hidden)
             ps rest Hps fuel VNone [] cs recs Hfuel Hrecs).
  - intros calendar_id time_min time_max single_events order_by q show_deleted
      recs Hmin Hmax Hrecs. unfold Events.list_all.
    exact (loop_keeps_asking from_api_response
             (Events.list_all_turn calendar_id time_min time_max single_events
                order_by q show_deleted)
             (fun fuel => Events.list_all_loop fuel calendar_id time_min
                time_max single_events order_by q show_deleted)
             (events_request calendar_id time_min time_max single_events
                order_by q show_deleted)
             (fun _ _ _ => eq_refl) (fun _ _ _ _ => eq_refl)
             (fun tok acc p rest' cs' new =>
                events_turn_page calendar_id time_min time_max single_events
                  order_by q show_deleted tok acc p rest' cs' new Hmin Hmax)
             ps rest Hps fuel VNone [] cs recs Hfuel Hrecs).
Qed.

(** X12: when, after pages that carry cursors, the service answers with an
    error of the transport, or has nothing more to say, [list_all] of
    calendars and of events raises that error, having sent one request per
    page and one more: the items of the pages already read are not
    returned. *)
Theorem list_all_stops_on_error (ps : list page) (tl : list (result pyval))
    (e : exn) (rest : list (result pyval)) (s : service) (fuel : nat) :
  Forall (fun p => has_cursor p = true) ps ->
  (tl = Raise e :: rest \/ (tl = [] /\ e = HttpError /\ rest = [])) ->
  pending s = map (fun p => Ok (page_response p)) ps ++ tl ->
  length ps < fuel ->
  (forall show_deleted show_hidden (recs : list Calendar),
     traverse from_api_response (concat (map page_items ps)) = Ok recs ->
     exists reqs,
       Calendars.list_all (Calendar := Calendar) fuel show_deleted show_hidden s =
         Some (Raise e, mkService rest (calls s ++ reqs)) /\
       length reqs = S (length ps)) /\
  (forall calendar_id time_min time_max single_events order_by q show_deleted
          (recs : list Event),
     Events.aware_bound time_min -> Events.aware_bound time_max ->
     traverse from_api_response (concat (map page_items ps)) = Ok recs ->
     exists reqs,
       Events.list_all (Event := Event) fuel calendar_id time_min time_max
         single_events order_by q show_deleted s =
         Some (Raise e, mkService rest (calls s ++ reqs)) /\
       length reqs = S (length ps)).
Proof.
  intros Hps Htl Hpending Hfuel. destruct s as [pend cs]. cbn in Hpending.
  subst pend. split.
  - intros show_deleted show_hidden recs Hrecs.
    eexists. split.
    + unfold Calendars.list_all.
      refine (loop_stops_on_error from_api_response
               (Calendars.list_all_turn show_deleted show_hidden)
               (fun fuel => Calendars.list_all_loop fuel show_deleted show_hidden)
               (Calendars.list_all_request show_deleted show_hidden)
               (fun _ _ _ _ => eq_refl)
               (calendars_turn_page show_deleted show_hidden)
               _ _
               ps tl e rest Hps Htl fuel VNone [] cs recs Hfuel Hrecs).
      * intros. reflexivity.
      * intros. reflexivity.
    + cbn. by rewrite !length_map.
  - intros calendar_id time_min time_max single_events order_by q show_deleted
      recs Hmin Hmax Hrecs.
    eexists. split.
    + unfold Events.list_all.
      exact (loop_stops_on_error from_api_response
               (Events.list_all_turn calendar_id time_min time_max single_events
                  order_by q show_deleted)
               (fun fuel => Events.list_all_loop fuel calendar_id time_min
                  time_max single_events order_by q show_deleted)
               (events_request calendar_id time_min time_max single_events
                  order_by q show_deleted)
               (fun _ _ _ _ => eq_refl)
               (fun tok acc p rest' cs' new =>
                  events_turn_page calendar_id time_min time_max single_events
                    order_by q show_deleted tok acc p rest' cs' new Hmin Hmax)
               (fun tok acc e' rest' cs' =>
                  events_turn_error calendar_id time_min time_max single_events
                    order_by q show_deleted tok acc e' rest' cs' Hmin Hmax)
               (fun tok acc cs' =>
                  events_turn_silent calendar_id time_min time_max single_events
                    order_by q show_deleted tok acc cs' Hmin Hmax)
               ps tl e rest Hps Htl fuel VNone [] cs recs Hfuel Hrecs).
    + cbn. by rewrite !length_map.
Qed.

(** X13: the listing of one page, [list] of calendars or of events or
    [instances], asks once and returns the decoded items of the page it
    gets, none when the page has no [items]; whatever cursor the page
    carries is neither followed nor returned. *)
Theorem list_returns_one_page (p : page) (rest : list (result pyval))
    (s : service) :
  pending s = Ok (page_response p) :: rest ->
  (forall show_deleted show_hidden max_results page_token,
     exists kw,
       Calendars.list_ (Calendar := Calendar) show_deleted show_hidden
         max_results page_token s =
       (traverse from_api_response (page_items p),
        mkService rest (calls s ++ [mkRequest calendarList_list kw]))) /\
  (forall calendar_id time_min time_max max_results single_events order_by q
          page_token show_deleted,
     Events.aware_bound time_min -> Events.aware_bound time_max ->
     Events.list_ (Event := Event) calendar_id time_min time_max max_results
       single_events order_by q page_token show_deleted s =
     (traverse from_api_response (page_items p),
      mkService rest
        (calls s ++
         [mkRequest events_list
            (Events.list_kwargs calendar_id time_min time_max max_results
               single_events order_by q page_token show_deleted)]))) /\
  (forall calendar_id event_id time_min time_max max_results,
     Events.aware_bound time_min -> Events.aware_bound time_max ->
     exists kw,
       Events.instances (Event := Event) calendar_id event_id time_min time_max
         max_results s =
       (traverse from_api_response (page_items p),
        mkService rest (calls s ++ [mkRequest events_instances kw])) /\
       request_cursor (mkRequest events_instances kw) = None).
Proof.
  intros Hpending. destruct s as [pend cs]. cbn in Hpending. subst pend.
  split; [|split].
  - intros. eexists.
    unfold Calendars.list_, Calendars.decode_items, bind, lift, execute.
    cbn [pending calls]. rewrite page_get_items. cbn [py_iter].
    by destruct (traverse from_api_response (page_items p)).
  - intros ? ? ? ? ? ? ? ? ? Hmin Hmax.
    unfold Events.list_, Events.decode_items, bind, lift, execute.
    rewrite (EventsMore.build_list_kwargs_aware_bounds _ _ _ _ _ _ _ _ _ Hmin Hmax).
    cbn [pending calls]. rewrite page_get_items. cbn [py_iter].
    by destruct (traverse from_api_response (page_items p)).
  - intros ? ? time_min time_max ? Hmin Hmax.
    unfold Events.instances, Events._ensure_isoformat, Events.decode_items,
      bind, lift, execute.
    destruct time_min as [t1|]; [destruct Hmin as [z1 ->]|];
      (destruct time_max as [t2|]; [destruct Hmax as [z2 ->]|]);
      cbn [rbind pending calls]; rewrite page_get_items; cbn [py_iter];
      eexists; (split; [by destruct (traverse from_api_response (page_items p))|]);
      reflexivity.
Qed.

(** X14: when the first answer of the service carries no page token, or
    is an error, [list_all] does what [list] does with 250 results a page
    and no page token: the same request, the same result or exception, for
    calendars and for events, whatever the arguments. *)
Theorem list_all_is_list_on_last_page (s : service) (fuel : nat) :
  first_page_is_last s ->
  (forall show_deleted show_hidden,
     Calendars.list_all (Calendar := Calendar) (S fuel) show_deleted show_hidden s =
       Some (Calendars.list_ show_deleted show_hidden 250 VNone s)) /\
  (forall calendar_id time_min time_max single_events order_by q show_deleted,
     Events.list_all (Event := Event) (S fuel) calendar_id time_min time_max
       single_events order_by q show_deleted s =
       Some (Events.list_ calendar_id time_min time_max 250 single_events
               order_by q VNone show_deleted s)).
Proof.
  intros Hlast. split.
  - intros show_deleted show_hidden.
    unfold Calendars.list_all, Calendars.list_all_loop, Calendars.list_all_turn,
      Calendars.list_, Calendars.decode_items, bind, lift, execute, ret.
    destruct s as [[|[r|e] rest] cs]; cbn [pending calls]; try reflexivity.
    destruct r as [| | | | |d]; try reflexivity. cbn [py_get].
    destruct (py_iter (dict_get d "items" (VList []))) as [l|e]; [|reflexivity].
    destruct (traverse from_api_response l) as [new|e]; [|reflexivity].
    by rewrite (Hlast d rest eq_refl).
  - intros calendar_id time_min time_max single_events order_by q show_deleted.
    unfold Events.list_all, Events.list_all_loop, Events.list_all_turn,
      Events.list_, Events.decode_items, bind, lift, execute, ret.
    destruct (Events._build_list_kwargs _ _ _ _ _ _ _ _ _) as [kw|e];
      [|reflexivity].
    destruct s as [[|[r|e] rest] cs]; cbn [pending calls]; try reflexivity.
    destruct r as [| | | | |d]; try reflexivity. cbn [py_get].
    destruct (py_iter (dict_get d "items" (VList []))) as [l|e]; [|reflexivity].
    destruct (traverse from_api_response l) as [new|e]; [|reflexivity].
    by rewrite (Hlast d rest eq_refl).
Qed.

End WithModels.

(** *** The statements on concrete listings *)
Import Doubles.

(** With two turns the listing of the three-page scenario is not done. *)
Lemma list_all_two_turns_not_done :
  @Calendars.list_all dict raw_model 2 false false three_pages = None /\
  @Events.list_all datetimes dict raw_model 2 "primary" None None true
    (Some "startTime") None false three_pages = None.
Proof.
  destruct (list_all_keeps_asking (pydt := datetimes) (Event := dict)
              (event_model := raw_model) (Calendar := dict)
              (calendar_model := raw_model) pages_250_250
              [Ok (page_response page_10)] three_pages 2)
    as [Hcalendars Hevents].
  - repeat constructor.
  - reflexivity.
  - repeat constructor.
  - split.
    + apply (Hcalendars false false (repeat raw_item 500)).
      vm_compute. reflexivity.
    + apply (Hevents "primary" None None true (Some "startTime") None false
               (repeat raw_item 500)); [exact I | exact I |].
      vm_compute. reflexivity.
Defined.

(** Two pages and then an error: the error is raised after three
    requests. *)
Lemma list_all_error_on_third_page :
  exists reqs,
    @Events.list_all datetimes dict raw_model 5 "primary" None None true
      (Some "startTime") None false pages_then_error =
      Some (Raise HttpError, mkService [] (calls pages_then_error ++ reqs)) /\
    length reqs = 3.
Proof.
  destruct (list_all_stops_on_error (pydt := datetimes) (Event := dict)
              (event_model := raw_model) (Calendar := dict)
              (calendar_model := raw_model) pages_250_250
              [Raise HttpError] HttpError [] pages_then_error 5)
    as [_ Hevents].
  - repeat constructor.
  - by left.
  - reflexivity.
  - repeat constructor.
  - apply (Hevents "primary" None None true (Some "startTime") None false
             (repeat raw_item 500)); [exact I | exact I |].
    vm_compute. reflexivity.
Defined.

(** [list] on the first page of the three-page scenario returns its 250
    items and stops there. *)
Lemma list_first_of_three_pages :
  @Events.list_ datetimes dict raw_model "primary" None None 250 true
    (Some "startTime") None VNone false three_pages =
  (Ok (repeat raw_item 250),
   mkService
     [Ok (page_response (mkPage (Some (repeat (VDict raw_item) 250)) (Some "p3")));
      Ok (page_response page_10)]
     [mkRequest events_list
        (@Events.list_kwargs datetimes "primary" None None 250 true
           (Some "startTime") None VNone false)]).
Proof.
  pose proof (list_returns_one_page (pydt := datetimes) (Event := dict)
                (event_model := raw_model) (Calendar := dict)
                (calendar_model := raw_model)
                (mkPage (Some (repeat (VDict raw_item) 250)) (Some "p2"))
                [Ok (page_response (mkPage (Some (repeat (VDict raw_item) 250))
                                      (Some "p3")));
                 Ok (page_response page_10)]
                three_pages eq_refl) as (_ & Hevents & _).
  rewrite (Hevents "primary" None None 250%Z true (Some "startTime") None VNone
             false I I).
  vm_compute. reflexivity.
Defined.

(** On a service whose one answer has no page token both listings agree. *)
Lemma list_all_is_list_one_event :
  @Events.list_all datetimes dict raw_model 1 "primary" None None true
    (Some "startTime") None false one_event =
  Some (@Events.list_ datetimes dict raw_model "primary" None None 250 true
          (Some "startTime") None VNone false one_event).
Proof.
  apply (list_all_is_list_on_last_page (pydt := datetimes) (Event := dict)
           (event_model := raw_model) (Calendar := dict)
           (calendar_model := raw_model) one_event 0).
  intros d rest [= <- <-]. reflexivity.
Defined.

End PaginationMore.

(** ** More on calendars *)
Module CalendarsMore.
Import Models Service.

Section WithModels.
Context {Calendar : Type} {calendar_model : Model Calendar}.

Lemma calendars_decode_items_state (result : pyval) (s : service) :
  snd (Calendars.decode_items (Calendar := Calendar) result s) = s.
Proof.
  unfold Calendars.decode_items, bind, lift.
  destruct (py_get result "items" (VList [])) as [items|e]; [|done].
  destruct (py_iter items) as [l|e]; done.
Qed.

Ltac round_trip :=
  unfold bind, lift, ret; cbn -[execute Calendars.decode_items];
  match goal with
  | |- context [execute ?m ?kw ?s] =>
      exists kw; destruct (EventsMore.execute_round_trip m kw s) as [Hc Hp];
      destruct (execute m kw s) as [[a|e] s']; cbn [snd] in *;
      rewrite ?calendars_decode_items_state; done
  end.

(** X15: every operation on calendars other than [list_all] makes exactly
    one round trip, whatever its arguments and whatever the service
    answers: one request of the operation's method, one answer used. *)
Theorem calendars_one_round_trip (s : service) :
  (forall calendar_id,
     one_round_trip calendarList_get s
       (snd (Calendars.get (Calendar := Calendar) calendar_id s))) /\
  (forall summary description time_zone location,
     one_round_trip calendars_insert s
       (snd (Calendars.create (Calendar := Calendar) summary description
               time_zone location s))) /\
  (forall calendar_id,
     one_round_trip calendars_delete s (snd (Calendars.delete calendar_id s))) /\
  (forall calendar_id,
     one_round_trip calendars_clear s (snd (Calendars.clear calendar_id s))) /\
  (forall show_deleted show_hidden max_results page_token,
     one_round_trip calendarList_list s
       (snd (Calendars.list_ (Calendar := Calendar) show_deleted show_hidden
               max_results page_token s))).
Proof.
  repeat apply conj.
  - intros. unfold Calendars.get. round_trip.
  - intros. unfold Calendars.create. round_trip.
  - intros. unfold Calendars.delete. round_trip.
  - intros. unfold Calendars.clear. round_trip.
  - intros. unfold Calendars.list_. round_trip.
Qed.

(** X16: [create] of a calendar sends a body with the summary and with
    exactly those of [description], [timeZone] and [location] that were
    passed, in this order, and returns the answer decoded; the summary is
    sent as it is, empty or not. *)
Theorem calendars_create_body (summary : string)
    (description time_zone location : option string)
    (answer : result pyval) (rest : list (result pyval)) (s : service) :
  pending s = answer :: rest ->
  Calendars.create (Calendar := Calendar) summary description time_zone
    location s =
    (rbind answer from_api_response,
     mkService rest
       (calls s ++
        [mkRequest calendars_insert
           [("body",
             VDict (("summary", VStr summary) ::
                    entry "description" (VStr <$> description) ++
                    entry "timeZone" (VStr <$> time_zone) ++
                    entry "location" (VStr <$> location)))]])).
Proof.
  intros Hp. unfold Calendars.create, bind, lift, execute. rewrite Hp.
  destruct description, time_zone, location, answer; reflexivity.
Qed.

End WithModels.

(** *** On a concrete service *)
Import Doubles.

Lemma calendars_create_team :
  @Calendars.create dict raw_model "Team" None (Some "America/Denver") None
    one_event =
  (Ok [("id", VStr "e1")],
   mkService []
     [mkRequest calendars_insert
        [("body", VDict [("summary", VStr "Team");
                         ("timeZone", VStr "America/Denver")])]]).
Proof.
  apply (calendars_create_body (calendar_model := raw_model) "Team" None
           (Some "America/Denver") None (Ok (VDict [("id", VStr "e1")])) []
           one_event).
  reflexivity.
Defined.

End CalendarsMore.

(** ** More on free/busy *)
Module FreeBusyMore.
Import Models Service FreeBusy FreeBusySpec.

Section WithModels.
Context {pydt : PyDatetime}.

(** X17: with timezone-aware bounds [query] sends one request whose body
    has the two bounds as ISO text, one [id] item per calendar id in the
    order given, none for an empty list, which is sent all the same, and
    exactly those of [timeZone], [groupExpansionMax] and
    [calendarExpansionMax] that were passed; it uses one answer. *)
Theorem query_request_body
    (calendar_ids : list string) (time_min time_max : py_datetime)
    (time_zone : option string)
    (group_expansion_max calendar_expansion_max : option Z) (s : service) :
  is_Some (tzinfo time_min) ->
  is_Some (tzinfo time_max) ->
  calls (snd (query calendar_ids time_min time_max time_zone
                group_expansion_max calendar_expansion_max s)) =
    calls s ++
    [mkRequest freebusy_query
       [("body", VDict (query_body calendar_ids time_min time_max time_zone
                          group_expansion_max calendar_expansion_max))]] /\
  pending (snd (query calendar_ids time_min time_max time_zone
                  group_expansion_max calendar_expansion_max s)) =
    tail (pending s).
Proof.
  intros [z1 Hmin] [z2 Hmax]. unfold query. rewrite Hmin, Hmax.
  unfold bind, lift, execute, query_body.
  destruct time_zone, group_expansion_max, calendar_expansion_max;
    destruct (pending s) as [|[r|e] rs]; split; reflexivity.
Qed.

(** Validation raises nothing but the validation error. *)
Lemma optional_raises {A} (validate : pyval -> result A) v e :
  optional validate v = Raise e -> e = ValidationError.
Proof.
  destruct v as [[]|]; cbn; try discriminate;
    destruct (validate _); cbn; congruence.
Qed.

Lemma traverse_validation_raises {A} (f : pyval -> result A) l e :
  traverse (fun x => validation (f x)) l = Raise e -> e = ValidationError.
Proof.
  induction l as [|x l IH]; cbn; [discriminate|].
  destruct (f x); cbn; [|congruence].
  destruct (traverse _ l); cbn; [discriminate|]. intros [= <-]. by apply IH.
Qed.

Lemma validate_list_raises {A} (f : pyval -> result A) v e :
  validate_list f v = Raise e -> e = ValidationError.
Proof.
  destruct v; cbn; try congruence. apply traverse_validation_raises.
Qed.

Lemma CalendarFreeBusy_validate_raises data e :
  CalendarFreeBusy_validate data = Raise e -> e = ValidationError.
Proof.
  destruct data as [| | | | |d]; cbn; try congruence.
  destruct (dict_lookup "busy" d) as [v|].
  - destruct (validate_list BusyPeriod_validate v) eqn:Hb; cbn.
    + destruct (optional _ _) eqn:Ho; cbn; [discriminate|].
      intros [= <-]. by apply optional_raises in Ho.
    + intros [= <-]. by apply validate_list_raises in Hb.
  - cbn. destruct (optional _ _) eqn:Ho; cbn; [discriminate|].
    intros [= <-]. by apply optional_raises in Ho.
Qed.

Lemma validate_calendars_raises kv e :
  validate_calendars kv = Raise e -> e = ValidationError.
Proof.
  induction kv as [|[k v] kv IH]; cbn; [discriminate|].
  destruct (CalendarFreeBusy_validate v) eqn:Hc; cbn.
  - destruct (validate_calendars kv); cbn; [discriminate|].
    intros [= <-]. by apply IH.
  - intros [= <-]. by apply CalendarFreeBusy_validate_raises in Hc.
Qed.

Lemma FreeBusyResponse_validate_raises data e :
  FreeBusyResponse_validate data = Raise e -> e = ValidationError.
Proof.
  destruct data as [| | | | |d]; cbn; try congruence.
  destruct (optional validate_str _) eqn:H1; cbn;
    [|intros [= <-]; by apply optional_raises in H1].
  destruct (optional validate_datetime (field d "timeMin" "time_min")) eqn:H2; cbn;
    [|intros [= <-]; by apply optional_raises in H2].
  destruct (optional validate_datetime (field d "timeMax" "time_max")) eqn:H3; cbn;
    [|intros [= <-]; by apply optional_raises in H3].
  destruct (dict_lookup "calendars" d) as [[| | | | |kv]|]; cbn; try congruence.
  destruct (validate_calendars kv) eqn:H4; cbn; [discriminate|].
  intros [= <-]. by apply validate_calendars_raises in H4.
Qed.

(** A busy period with no start or no end is not valid. *)
Lemma BusyPeriod_validate_incomplete pd :
  dict_lookup "start" pd = None \/ dict_lookup "end" pd = None ->
  BusyPeriod_validate (VDict pd) = Raise ValidationError.
Proof.
  intros [H|H]; cbn; rewrite H; [done|]. by destruct (dict_lookup "start" pd).
Qed.

Lemma traverse_validation_fails {A} (f : pyval -> result A) l x :
  x ∈ l -> f x = Raise ValidationError ->
  traverse (fun x => validation (f x)) l = Raise ValidationError.
Proof.
  intros Hin Hx. induction l as [|y l IH]; [by apply elem_of_nil in Hin|].
  cbn. apply elem_of_cons in Hin as [<-|Hin].
  - by rewrite Hx.
  - destruct (f y); cbn; [|done]. by rewrite IH.
Qed.

Lemma validate_calendars_fails kv id v :
  (id, v) ∈ kv -> CalendarFreeBusy_validate v = Raise ValidationError ->
  validate_calendars kv = Raise ValidationError.
Proof.
  intros Hin Hv. induction kv as [|[k' y] kv IH]; [by apply elem_of_nil in Hin|].
  cbn. apply elem_of_cons in Hin as [[= <- <-]|Hin].
  - by rewrite Hv.
  - destruct (CalendarFreeBusy_validate y) eqn:Hy; cbn.
    + by rewrite IH.
    + by rewrite (CalendarFreeBusy_validate_raises _ _ Hy).
Qed.

(** X19: [query] raises the error of the transport when the service
    answers with one, and a validation error when one busy period of one
    calendar of the answer has no start or no end: no mapping is returned
    for the calendars that were in order. *)
Theorem query_raises
    (calendar_ids : list string) (time_min time_max : py_datetime)
    (time_zone : option string)
    (group_expansion_max calendar_expansion_max : option Z)
    (answer : result pyval) (rest : list (result pyval)) (s : service) :
  is_Some (tzinfo time_min) ->
  is_Some (tzinfo time_max) ->
  pending s = answer :: rest ->
  match answer with
  | Raise e =>
      fst (query calendar_ids time_min time_max time_zone group_expansion_max
             calendar_expansion_max s) = Raise e
  | Ok data =>
      forall d kv id entry l pd,
        data = VDict d ->
        dict_lookup "calendars" d = Some (VDict kv) ->
        (id, VDict entry) ∈ kv ->
        dict_lookup "busy" entry = Some (VList l) ->
        VDict pd ∈ l ->
        dict_lookup "start" pd = None \/ dict_lookup "end" pd = None ->
        fst (query calendar_ids time_min time_max time_zone group_expansion_max
               calendar_expansion_max s) = Raise ValidationError
  end.
Proof.
  intros [z1 Hmin] [z2 Hmax] Hp. unfold query. rewrite Hmin, Hmax.
  unfold bind, lift, execute. rewrite Hp.
  destruct answer as [data|e]; [|reflexivity].
  intros d kv id entry l pd -> Hcal Hin Hbusy Hpd Hmissing.
  cbn [fst from_api_response model_validate FreeBusyResponse_model].
  assert (Hentry : CalendarFreeBusy_validate (VDict entry) = Raise ValidationError).
  { cbn. rewrite Hbusy. cbn.
    rewrite (traverse_validation_fails BusyPeriod_validate l (VDict pd) Hpd
               (BusyPeriod_validate_incomplete pd Hmissing)).
    reflexivity. }
  destruct (FreeBusyResponse_validate (VDict d)) as [r|e] eqn:Hr.
  - exfalso. revert Hr. cbn.
    destruct (optional validate_str _); cbn; [|discriminate].
    destruct (optional validate_datetime (field d "timeMin" "time_min")); cbn;
      [|discriminate].
    destruct (optional validate_datetime (field d "timeMax" "time_max")); cbn;
      [|discriminate].
    rewrite Hcal. by rewrite (validate_calendars_fails kv id _ Hin Hentry).
  - by rewrite (FreeBusyResponse_validate_raises _ _ Hr).
Qed.

Section ReadBack.
Hypothesis read_back : forall t, validate_datetime (VStr (isoformat t)) = Ok t.


End ReadBack.

End WithModels.

(** *** On concrete answers *)
Import Doubles.

Lemma query_body_of_two :
  calls (snd (@query datetimes ["cal1"; "cal2"] aware_nine aware_nine None None
                None scenario_freebusy)) =
    [mkRequest freebusy_query
       [("body", VDict [("timeMin", VStr aware_nine); ("timeMax", VStr aware_nine);
                        ("items", VList [VDict [("id", VStr "cal1")];
                                         VDict [("id", VStr "cal2")]])])]].
Proof.
  apply (query_request_body (pydt := datetimes) ["cal1"; "cal2"] aware_nine
           aware_nine None None None scenario_freebusy).
  - by exists tt.
  - by exists tt.
Defined.

Lemma query_bad_period :
  fst (@query datetimes ["cal1"] aware_nine aware_nine None None None
         bad_period_freebusy) = Raise ValidationError.
Proof.
  apply (query_raises (pydt := datetimes) ["cal1"] aware_nine aware_nine None
           None None (Ok (VDict freebusy_bad_period)) [] bad_period_freebusy
           ltac:(by exists tt) ltac:(by exists tt) eq_refl
           freebusy_bad_period
           [("cal1", VDict [("busy", VList [VDict period_without_end])])]
           "cal1" [("busy", VList [VDict period_without_end])]
           [VDict period_without_end] period_without_end).
  - reflexivity.
  - reflexivity.
  - apply list_elem_of_here.
  - reflexivity.
  - apply list_elem_of_here.
  - by right.
Defined.


End FreeBusyMore.
